(** * lightningd/plugin_control.c: the [plugin] control command

    A shallow embedding of the dynamic plugin control surface of
    lightningd ([plugin start|stop|startdir|rescan|list]) and of the
    three completion callbacks it exposes to the plugin layer
    ([plugin_cmd_killed], [plugin_cmd_succeeded], [plugin_cmd_all_complete]).

    The C code mutates the daemon ([cmd->ld]) and talks to the JSON-RPC
    transport; here every handler is a state-passing function over a
    [lightningd] record which also carries the ordered trace of the calls
    the file makes to its collaborators. *)

From Stdlib Require Import String Ascii List Bool Arith ZArith Lia.
Import ListNotations.

Open Scope string_scope.
Open Scope list_scope.

(** ** Data model *)

(** Modelled from the spec: [enum plugin_state] is declared in
    lightningd/plugin.h, outside plugin_control.c.  The source only names
    [INIT_COMPLETE]; the spec gives the lifecycle as Starting, Active and
    Killed, with Active being [INIT_COMPLETE]. *)
Inductive plugin_state : Type :=
| STARTING
| INIT_COMPLETE
| KILLED.

Definition plugin_state_eqb (a b : plugin_state) : bool :=
  match a, b with
  | STARTING, STARTING => true
  | INIT_COMPLETE, INIT_COMPLETE => true
  | KILLED, KILLED => true
  | _, _ => false
  end.

(** [struct plugin], restricted to the fields plugin_control.c reads:
    [p->cmd], [p->dynamic], [p->plugin_state].  The back pointer
    [p->plugins] designates the one registry of the daemon and is read
    from the state. *)
Record plugin : Type := mk_plugin {
  p_cmd : string;
  p_dynamic : bool;
  p_state : plugin_state
}.

(** [struct command *]: the handle of one in-flight JSON-RPC call. *)
Definition command : Type := nat.

(** The two error codes the file passes to [command_fail]. *)
Inductive errcode : Type :=
| JSONRPC2_INVALID_PARAMS
| PLUGIN_ERROR.

(** [struct command_result *]: the three markers a handler can return. *)
Inductive command_result : Type :=
| complete
| pending
| param_failed.

(** ** JSON streams

    A [json_stream] is written front to back by the [json_*] calls; the
    stream is the sequence of items written so far. *)
Inductive json_item : Type :=
| Json_array_start (fieldname : option string)
| Json_array_end
| Json_object_start (fieldname : option string)
| Json_object_end
| Json_string (fieldname : string) (value : string)
| Json_bool (fieldname : string) (value : bool).

Definition json_stream : Type := list json_item.

Definition json_stream_success (cmd : command) : json_stream := [].

Definition json_array_start (js : json_stream) (fieldname : option string)
  : json_stream := js ++ [Json_array_start fieldname].

Definition json_array_end (js : json_stream) : json_stream :=
  js ++ [Json_array_end].

Definition json_object_start (js : json_stream) (fieldname : option string)
  : json_stream := js ++ [Json_object_start fieldname].

Definition json_object_end (js : json_stream) : json_stream :=
  js ++ [Json_object_end].

Definition json_add_string (js : json_stream) (fieldname value : string)
  : json_stream := js ++ [Json_string fieldname value].

Definition json_add_bool (js : json_stream) (fieldname : string) (value : bool)
  : json_stream := js ++ [Json_bool fieldname value].

(** ** The daemon state and the trace of outgoing calls *)

(** A terminal reply handed to the transport. *)
Inductive reply : Type :=
| reply_success (result : json_stream)
| reply_fail (code : errcode) (msg : string).

(** One entry per call plugin_control.c makes to a collaborator that has
    an effect outside the file. *)
Inductive event : Type :=
| Ev_reply (cmd : command) (r : reply)
| Ev_plugin_register (path : string) (cmd : command)
| Ev_plugin_send_getmanifest (p : plugin)
| Ev_plugins_send_getmanifest
| Ev_add_plugin_dir (dir : string)
| Ev_plugins_add_default_dir
| Ev_plugin_kill (p : plugin) (msg : string)
| Ev_cohort_opened (cmd : command) (size : nat).

(** [cmd->ld]: the registry [ld->plugins->plugins] in insertion order, the
    global [deprecated_apis], and the trace. *)
Record lightningd : Type := mk_lightningd {
  plugins : list plugin;
  deprecated_apis : bool;
  trace : list event
}.

(** State passing: a computation reads and updates the daemon. *)
Definition M (A : Type) : Type := lightningd -> A * lightningd.

Definition ret {A : Type} (a : A) : M A := fun ld => (a, ld).

Definition bind {A B : Type} (m : M A) (k : A -> M B) : M B :=
  fun ld => let (a, ld') := m ld in k a ld'.

Declare Scope ld_scope.
Delimit Scope ld_scope with ld.
Notation "x <- m ;; k" := (bind m (fun x => k))
  (at level 61, m at next level, right associativity) : ld_scope.
Notation "m ;; k" := (bind m (fun _ => k))
  (at level 61, right associativity) : ld_scope.
Open Scope ld_scope.

Definition get_plugins : M (list plugin) := fun ld => (plugins ld, ld).

Definition set_plugins (ps : list plugin) : M unit :=
  fun ld => (tt, mk_lightningd ps (deprecated_apis ld) (trace ld)).

Definition get_deprecated_apis : M bool := fun ld => (deprecated_apis ld, ld).

Definition emit (e : event) : M unit :=
  fun ld => (tt, mk_lightningd (plugins ld) (deprecated_apis ld) (trace ld ++ [e])).

(** Modelled from the spec: [command_success], [command_fail],
    [command_still_pending] and [command_param_failed] live in
    lightningd/jsonrpc.c, outside plugin_control.c.  They are the
    transport's resolve interface: [command_success] and [command_fail]
    each hand one terminal reply for [cmd] to the transport and return the
    [complete] marker; [command_still_pending] and [command_param_failed]
    only return their marker. *)
Definition command_success (cmd : command) (response : json_stream)
  : M command_result :=
  emit (Ev_reply cmd (reply_success response)) ;; ret complete.

Definition command_fail (cmd : command) (code : errcode) (msg : string)
  : M command_result :=
  emit (Ev_reply cmd (reply_fail code msg)) ;; ret complete.

Definition command_still_pending (cmd : command) : M command_result :=
  ret pending.

Definition command_param_failed : M command_result := ret param_failed.

(** ** Response builder and completion callbacks (lines 17-52) *)

(** The body of the [list_for_each] loop of [plugin_dynamic_list_plugins]. *)
Definition list_plugins_body (response : json_stream) (p : plugin)
  : json_stream :=
  let response := json_object_start response None in
  let response := json_add_string response "name" (p_cmd p) in
  let response := json_add_bool response "active"
                    (plugin_state_eqb (p_state p) INIT_COMPLETE) in
  json_object_end response.

Definition plugin_dynamic_list_plugins (cmd : command) (ps : list plugin)
  : M command_result :=
  let response := json_stream_success cmd in
  let response := json_array_start response (Some "plugins") in
  let response := fold_left list_plugins_body ps response in
  let response := json_array_end response in
  command_success cmd response.

Definition plugin_cmd_killed (cmd : command) (p : plugin) (msg : string)
  : M command_result :=
  command_fail cmd PLUGIN_ERROR (p_cmd p ++ ": " ++ msg)%string.

(** [plugin->plugins] is the registry of the daemon at the time of the call. *)
Definition plugin_cmd_succeeded (cmd : command) (p : plugin)
  : M command_result :=
  ps <- get_plugins ;;
  plugin_dynamic_list_plugins cmd ps.

Definition plugin_cmd_all_complete (ps : list plugin) (cmd : command)
  : M command_result :=
  plugin_dynamic_list_plugins cmd ps.

(** ** Collaborators

    plugin_control.c calls into the plugin layer (lightningd/plugin.c), the
    parameter parser (common/param.c) and libc; none of them is part of
    the file.  Their results are taken as parameters: every theorem of the
    handlers holds for any behaviour of these functions. *)

Inductive access_mode : Type := X_OK | F_OK.

Class PluginLayer : Type := {
  (** [buffer] and [params] of a JSON-RPC call *)
  request : Type;
  (** [param_subcommand(cmd, buffer, params, names..., NULL)]: the
      subcommand, or [None] for NULL *)
  param_subcommand : request -> list string -> option string;
  (** [param(..., p_req("subcommand", param_ignore, cmd), NULL)] *)
  param_subcommand_only : request -> bool;
  (** [param(..., p_req("subcommand", param_ignore, cmd),
             p_req(name, param_string, &v), NULL)]: [Some v], or [None]
      when it returns false *)
  param_subcommand_string : request -> string -> option string;
  (** [access(path, mode)] and the text of [strerror(errno)] after it *)
  access : string -> access_mode -> Z;
  strerror_errno : string -> access_mode -> string;
  (** [plugin_paths_match(cmd, name)] *)
  plugin_paths_match : string -> string -> bool;
  (** [plugin_register(plugins, path, cmd)]: [None] for NULL, else the new
      record and the registry holding it *)
  do_plugin_register :
    list plugin -> string -> command -> option (plugin * list plugin);
  (** [plugin_send_getmanifest(p)]: the registry afterwards and the error *)
  do_plugin_send_getmanifest : plugin -> list plugin -> list plugin * option string;
  (** [plugins_send_getmanifest(plugins)] *)
  do_plugins_send_getmanifest : list plugin -> list plugin;
  (** [add_plugin_dir(plugins, dir, error_ok)]: registry afterwards, error *)
  do_add_plugin_dir : list plugin -> string -> bool -> list plugin * option string;
  (** [plugins_add_default_dir(plugins)] *)
  do_plugins_add_default_dir : list plugin -> list plugin;
  (** [plugin_kill(p, msg)]: the registry afterwards *)
  do_plugin_kill : plugin -> string -> list plugin -> list plugin;
  (** the number of registered plugins whose handshake is outstanding *)
  cohort_size : list plugin -> nat
}.

(** The outcome of [json_plugin_control]: it returns, or reaches [abort()]. *)
Inductive outcome : Type :=
| Returned (r : command_result) (ld : lightningd)
| Aborted.

Definition streq (a b : string) : bool := String.eqb a b.

Section Handlers.

Context `{PL : PluginLayer}.

Definition plugin_register (path : string) (cmd : command) : M (option plugin) :=
  emit (Ev_plugin_register path cmd) ;;
  ps <- get_plugins ;;
  match do_plugin_register ps path cmd with
  | None => ret None
  | Some (p, ps') => set_plugins ps' ;; ret (Some p)
  end.

Definition plugin_send_getmanifest (p : plugin) : M (option string) :=
  emit (Ev_plugin_send_getmanifest p) ;;
  ps <- get_plugins ;;
  let (ps', err) := do_plugin_send_getmanifest p ps in
  set_plugins ps' ;; ret err.

Definition plugins_send_getmanifest : M unit :=
  emit Ev_plugins_send_getmanifest ;;
  ps <- get_plugins ;;
  set_plugins (do_plugins_send_getmanifest ps).

Definition add_plugin_dir (dir : string) (error_ok : bool) : M (option string) :=
  emit (Ev_add_plugin_dir dir) ;;
  ps <- get_plugins ;;
  let (ps', err) := do_add_plugin_dir ps dir error_ok in
  set_plugins ps' ;; ret err.

Definition plugins_add_default_dir : M unit :=
  emit Ev_plugins_add_default_dir ;;
  ps <- get_plugins ;;
  set_plugins (do_plugins_add_default_dir ps).

Definition plugin_kill (p : plugin) (msg : string) : M unit :=
  emit (Ev_plugin_kill p msg) ;;
  ps <- get_plugins ;;
  set_plugins (do_plugin_kill p msg ps).

(** Modelled from the spec: [plugin_register_all_complete] lives in
    lightningd/plugin.c, outside plugin_control.c.  The source says of it
    "If none added, this calls plugin_cmd_all_complete immediately", and
    the spec that a cohort of size 0 resolves at creation while a larger
    one is held until its members are accounted for: with no handshake
    outstanding it returns what [plugin_cmd_all_complete] returns, else it
    keeps [cmd] for later and returns NULL.  The handlers hand it the
    daemon and the command only -- [add_plugin_dir] returns nothing but
    its error -- and the callback it calls is given the whole registry:
    what it can decide on is the registry of the daemon, which is what
    [cohort_size] reads. *)
Definition plugin_register_all_complete (cmd : command)
  : M (option command_result) :=
  ps <- get_plugins ;;
  match cohort_size ps with
  | O => res <- plugin_cmd_all_complete ps cmd ;; ret (Some res)
  | S k => emit (Ev_cohort_opened cmd (S k)) ;; ret None
  end.

(** *** Start (lines 58-77) *)
Definition plugin_dynamic_start (cmd : command) (plugin_path : string)
  : M command_result :=
  p <- plugin_register plugin_path cmd ;;
  match p with
  | None =>
      command_fail cmd JSONRPC2_INVALID_PARAMS
        (plugin_path ++ ": already registered")%string
  | Some p =>
      err <- plugin_send_getmanifest p ;;
      match err with
      | Some err =>
          command_fail cmd PLUGIN_ERROR (plugin_path ++ ": " ++ err)%string
      | None => command_still_pending cmd
      end
  end.

(** *** Startdir (lines 83-100) *)
Definition plugin_dynamic_startdir (cmd : command) (dir_path : string)
  : M command_result :=
  err <- add_plugin_dir dir_path false ;;
  match err with
  | Some err => command_fail cmd JSONRPC2_INVALID_PARAMS err
  | None =>
      res <- plugin_register_all_complete cmd ;;
      match res with
      | Some res => ret res
      | None => plugins_send_getmanifest ;; command_still_pending cmd
      end
  end.

(** *** Stop (lines 102-130)

    The [list_for_each] loop returns from inside its body at the first
    record whose path matches; [stop_scan] is that loop over the records
    still to visit, followed by the code after the loop. *)
Fixpoint stop_scan (cmd : command) (plugin_name : string) (ps : list plugin)
  : M command_result :=
  match ps with
  | [] =>
      command_fail cmd JSONRPC2_INVALID_PARAMS
        ("Could not find plugin " ++ plugin_name)%string
  | p :: rest =>
      if plugin_paths_match (p_cmd p) plugin_name then
        if negb (p_dynamic p) then
          command_fail cmd JSONRPC2_INVALID_PARAMS
            (plugin_name ++ " cannot be managed when lightningd is up")%string
        else
          plugin_kill p "stopped by lightningd via RPC" ;;
          let response := json_stream_success cmd in
          dep <- get_deprecated_apis ;;
          let response :=
            if dep then
              json_add_string response ""
                ("Successfully stopped " ++ plugin_name ++ ".")%string
            else response in
          let response :=
            json_add_string response "result"
              ("Successfully stopped " ++ plugin_name ++ ".")%string in
          command_success cmd response
      else stop_scan cmd plugin_name rest
  end.

Definition plugin_dynamic_stop (cmd : command) (plugin_name : string)
  : M command_result :=
  ps <- get_plugins ;;
  stop_scan cmd plugin_name ps.

(** *** Rescan (lines 135-149) *)
Definition plugin_dynamic_rescan_plugins (cmd : command) : M command_result :=
  plugins_add_default_dir ;;
  res <- plugin_register_all_complete cmd ;;
  match res with
  | Some res => ret res
  | None => command_still_pending cmd
  end.

(** *** The dispatcher (lines 155-224) *)
Definition subcommands : list string :=
  ["start"; "stop"; "startdir"; "rescan"; "list"].

Definition returned (m : M command_result) (ld : lightningd) : outcome :=
  let (r, ld') := m ld in Returned r ld'.

(** The [if / else if] chain on [subcmd], ending in [abort()]. *)
Definition dispatch (cmd : command) (req : request) (subcmd : string)
  (ld : lightningd) : outcome :=
  if streq subcmd "stop" then
    match param_subcommand_string req "plugin" with
    | None => returned command_param_failed ld
    | Some plugin_name => returned (plugin_dynamic_stop cmd plugin_name) ld
    end
  else if streq subcmd "start" then
    match param_subcommand_string req "plugin" with
    | None => returned command_param_failed ld
    | Some plugin_path =>
        if (access plugin_path X_OK =? 0)%Z then
          returned (plugin_dynamic_start cmd plugin_path) ld
        else
          returned
            (command_fail cmd JSONRPC2_INVALID_PARAMS
               (plugin_path ++ " is not executable: "
                  ++ strerror_errno plugin_path X_OK)%string) ld
    end
  else if streq subcmd "startdir" then
    match param_subcommand_string req "directory" with
    | None => returned command_param_failed ld
    | Some dir_path =>
        if (access dir_path F_OK =? 0)%Z then
          returned (plugin_dynamic_startdir cmd dir_path) ld
        else
          returned
            (command_fail cmd JSONRPC2_INVALID_PARAMS
               ("Could not open " ++ dir_path)%string) ld
    end
  else if streq subcmd "rescan" then
    if negb (param_subcommand_only req) then
      returned command_param_failed ld
    else returned (plugin_dynamic_rescan_plugins cmd) ld
  else if streq subcmd "list" then
    if negb (param_subcommand_only req) then
      returned command_param_failed ld
    else
      returned (ps <- get_plugins ;; plugin_dynamic_list_plugins cmd ps) ld
  else Aborted.

Definition json_plugin_control (cmd : command) (req : request)
  (ld : lightningd) : outcome :=
  match param_subcommand req subcommands with
  | None => returned command_param_failed ld
  | Some subcmd => dispatch cmd req subcmd ld
  end.

End Handlers.

(** ** Completion signals

    The plugin layer reports the outcome of a handshake by calling one of
    the three callbacks with the command it holds.  A run of the event
    queue for one command is a list of such calls. *)
Inductive completion_signal : Type :=
| Sig_succeeded (p : plugin)
| Sig_killed (p : plugin) (msg : string)
| Sig_all_complete.

Definition deliver (cmd : command) (s : completion_signal) : M command_result :=
  match s with
  | Sig_succeeded p => plugin_cmd_succeeded cmd p
  | Sig_killed p msg => plugin_cmd_killed cmd p msg
  | Sig_all_complete => ps <- get_plugins ;; plugin_cmd_all_complete ps cmd
  end.

Fixpoint deliver_all (cmd : command) (sigs : list completion_signal) : M unit :=
  match sigs with
  | [] => ret tt
  | s :: sigs' => deliver cmd s ;; deliver_all cmd sigs'
  end.

(** ** Observations on a trace *)

(** The terminal replies the transport received for [cmd], oldest first. *)
Definition reply_to (cmd : command) (e : event) : list reply :=
  match e with
  | Ev_reply c r => if Nat.eqb c cmd then [r] else []
  | _ => []
  end.

Definition replies_to (cmd : command) (t : list event) : list reply :=
  flat_map (reply_to cmd) t.

(** The records [plugin_kill] was called on. *)
Definition kill_of (e : event) : list plugin :=
  match e with
  | Ev_plugin_kill p _ => [p]
  | _ => []
  end.

Definition killed (t : list event) : list plugin := flat_map kill_of t.

(** Calls that start a handshake, that register, or that open a cohort. *)
Definition is_handshake (e : event) : bool :=
  match e with
  | Ev_plugin_send_getmanifest _ | Ev_plugins_send_getmanifest => true
  | _ => false
  end.

Definition is_registration (e : event) : bool :=
  match e with
  | Ev_plugin_register _ _ | Ev_add_plugin_dir _ | Ev_plugins_add_default_dir => true
  | _ => false
  end.

Definition is_cohort (e : event) : bool :=
  match e with
  | Ev_cohort_opened _ _ => true
  | _ => false
  end.

(** Reading a list reply back: the [(name, active)] pairs of the
    ["plugins"] array, in the order they were written. *)
Fixpoint decode_entries (js : json_stream) : option (list (string * bool)) :=
  match js with
  | [Json_array_end] => Some []
  | Json_object_start None :: Json_string k1 name :: Json_bool k2 active
      :: Json_object_end :: rest =>
      if (String.eqb k1 "name" && String.eqb k2 "active")%bool then
        match decode_entries rest with
        | Some l => Some ((name, active) :: l)
        | None => None
        end
      else None
  | _ => None
  end.

Definition decode_list_reply (r : reply) : option (list (string * bool)) :=
  match r with
  | reply_success (Json_array_start (Some k) :: rest) =>
      if String.eqb k "plugins" then decode_entries rest else None
  | _ => None
  end.

(** What the spec calls the registry snapshot: each record as
    [(name, active)], in registry order. *)
Definition snapshot (ps : list plugin) : list (string * bool) :=
  map (fun p => (p_cmd p, plugin_state_eqb (p_state p) INIT_COMPLETE)) ps.

(** The string members written at the top level of a success reply. *)
Definition string_member (i : json_item) : list (string * string) :=
  match i with
  | Json_string k v => [(k, v)]
  | _ => []
  end.

Definition string_members (r : reply) : list (string * string) :=
  match r with
  | reply_success js => flat_map string_member js
  | reply_fail _ _ => []
  end.

(** [s] mentions [sub]: [sub] occurs in [s]. *)
Definition mentions (s sub : string) : Prop :=
  exists pre post : string, s = (pre ++ sub ++ post)%string.

(** The matcher of the stop loop: the first record whose path matches. *)
Definition find_plugin `{PL : PluginLayer} (ps : list plugin) (name : string)
  : option plugin :=
  find (fun p => plugin_paths_match (p_cmd p) name) ps.

(** ** A reference plugin layer *)

Fixpoint path_basename_from (s acc : string) : string :=
  match s with
  | EmptyString => acc
  | String c rest =>
      if Ascii.eqb c "/"%char then path_basename_from rest EmptyString
      else path_basename_from rest (acc ++ String c EmptyString)%string
  end.

Definition path_basename (s : string) : string :=
  path_basename_from s EmptyString.

(** The file system the reference layer sees: the executable files, the
    directories (all searchable) with the executables below them, and the
    files that exist without execute permission. *)
Record filesystem : Type := mk_filesystem {
  fs_executables : list string;
  fs_directories : list (string * list string);
  fs_plain_files : list string
}.

Definition fs_is_executable_file (fs : filesystem) (path : string) : bool :=
  existsb (String.eqb path) (fs_executables fs).

Definition fs_is_directory (fs : filesystem) (path : string) : bool :=
  existsb (fun d => String.eqb (fst d) path) (fs_directories fs).

Definition fs_is_plain_file (fs : filesystem) (path : string) : bool :=
  existsb (String.eqb path) (fs_plain_files fs).

Definition fs_lookup_dir (fs : filesystem) (dir : string)
  : option (list string) :=
  match find (fun d => String.eqb (fst d) dir) (fs_directories fs) with
  | Some d => Some (snd d)
  | None => None
  end.

Definition registered (ps : list plugin) (path : string) : bool :=
  existsb (fun p => String.eqb (p_cmd p) path) ps.

Definition register_new (ps : list plugin) (path : string) : list plugin :=
  if registered ps path then ps else ps ++ [mk_plugin path true STARTING].

Definition mark_killed (p : plugin) (q : plugin) : plugin :=
  if String.eqb (p_cmd q) (p_cmd p)
  then mk_plugin (p_cmd q) (p_dynamic q) KILLED else q.

(** Modelled from the spec: the collaborators of section 6 and the
    matcher of section 4.1, all outside plugin_control.c.  Requests are
    positional: the subcommand token followed by its arguments.
    [findPlugin] matches by exact path equality or by basename equality;
    [registerAttempt] answers AlreadyRegistered for a known path and
    otherwise appends a dynamic record in state Starting;
    [discoverExecutables] registers the not-yet-known executables of a
    directory or reports that it cannot be read; [beginHandshake] is
    submitted without error; [killRecord] moves the record to Killed; the
    handshakes outstanding are the records still in Starting.  [access]
    answers as libc does: [X_OK] succeeds on an executable file and on a
    directory, which is searchable, [F_OK] on whatever exists; the error
    text is that of EACCES for a file without execute permission and
    that of ENOENT for a path that does not exist. *)
Definition reference_layer (fs : filesystem) : PluginLayer := {|
  request := list string;
  param_subcommand := fun req names =>
    match req with
    | [] => None
    | s :: _ => if existsb (String.eqb s) names then Some s else None
    end;
  param_subcommand_only := fun req => Nat.eqb (length req) 1;
  param_subcommand_string := fun req _ =>
    match req with
    | [_; v] => Some v
    | _ => None
    end;
  access := fun path mode =>
    match mode with
    | X_OK =>
        if (fs_is_executable_file fs path || fs_is_directory fs path)%bool
        then 0%Z else (-1)%Z
    | F_OK =>
        if (fs_is_executable_file fs path || fs_is_directory fs path
            || fs_is_plain_file fs path)%bool
        then 0%Z else (-1)%Z
    end;
  strerror_errno := fun path _ =>
    if fs_is_plain_file fs path then "Permission denied"
    else "No such file or directory";
  plugin_paths_match := fun cmd name =>
    (String.eqb cmd name || String.eqb (path_basename cmd) name)%bool;
  do_plugin_register := fun ps path _ =>
    if registered ps path then None
    else Some (mk_plugin path true STARTING, ps ++ [mk_plugin path true STARTING]);
  do_plugin_send_getmanifest := fun _ ps => (ps, None);
  do_plugins_send_getmanifest := fun ps => ps;
  do_add_plugin_dir := fun ps dir _ =>
    match fs_lookup_dir fs dir with
    | Some files => (fold_left register_new files ps, None)
    | None => (ps, Some ("Failed to open plugin-dir " ++ dir)%string)
    end;
  do_plugins_add_default_dir := fun ps => ps;
  do_plugin_kill := fun p _ ps => map (mark_killed p) ps;
  cohort_size := fun ps =>
    length (filter (fun p => plugin_state_eqb (p_state p) STARTING) ps)
|}.

(** A small daemon for the examples: one static plugin, two dynamic ones
    that completed their handshake and one that was killed. *)
Definition example_fs : filesystem :=
  mk_filesystem ["/bin/true"; "/opt/plugins/summary"]
                [("/empty/dir", []); ("/opt/plugins", ["/opt/plugins/summary"])]
                ["/etc/hosts"].

Definition example_ld (dep : bool) : lightningd :=
  mk_lightningd
    [mk_plugin "/usr/libexec/autoclean" false INIT_COMPLETE;
     mk_plugin "/bin/true" true INIT_COMPLETE;
     mk_plugin "/home/u/foo" true INIT_COMPLETE;
     mk_plugin "/home/u/old" true KILLED]
    dep [].

Definition example_layer : PluginLayer := reference_layer example_fs.

Definition example_foo : plugin := mk_plugin "/home/u/foo" true INIT_COMPLETE.

Definition example_autoclean : plugin :=
  mk_plugin "/usr/libexec/autoclean" false INIT_COMPLETE.

(** The daemon with [es] appended to its trace. *)
Definition logged (ld : lightningd) (es : list event) : lightningd :=
  mk_lightningd (plugins ld) (deprecated_apis ld) (trace ld ++ es).

(** The items one registry record contributes to a list reply. *)
Definition list_entry (p : plugin) : json_stream :=
  [Json_object_start None;
   Json_string "name" (p_cmd p);
   Json_bool "active" (plugin_state_eqb (p_state p) INIT_COMPLETE);
   Json_object_end].

(** ** Further observations and layers *)

(** The stream [plugin_dynamic_list_plugins] writes, in closed form. *)
Definition list_response (ps : list plugin) : json_stream :=
  Json_array_start (Some "plugins") :: flat_map list_entry ps ++ [Json_array_end].



(** The error codes of the failure replies of a trace. *)
Definition failure_code (e : event) : list errcode :=
  match e with
  | Ev_reply _ (reply_fail code _) => [code]
  | _ => []
  end.

Definition failure_codes (t : list event) : list errcode :=
  flat_map failure_code t.

(** Well-formed streams.  [json_stream_success] leaves the writer inside
    the result object, so at the outermost level, as inside any object,
    every item carries a field name; inside an array arrays and objects
    are unnamed and no named member may occur.  Every array and object
    that is opened is closed by its own kind, innermost first. *)
Inductive bracket : Type :=
| In_array
| In_object.

Definition in_array (open : list bracket) : bool :=
  match open with
  | In_array :: _ => true
  | _ => false
  end.

Definition name_fits (open : list bracket) (fieldname : option string) : bool :=
  match fieldname with
  | Some _ => negb (in_array open)
  | None => in_array open
  end.

Fixpoint well_formed_from (open : list bracket) (js : json_stream) : bool :=
  match js with
  | [] =>
      match open with
      | [] => true
      | _ :: _ => false
      end
  | Json_array_start fieldname :: rest =>
      name_fits open fieldname && well_formed_from (In_array :: open) rest
  | Json_object_start fieldname :: rest =>
      name_fits open fieldname && well_formed_from (In_object :: open) rest
  | Json_array_end :: rest =>
      match open with
      | In_array :: open' => well_formed_from open' rest
      | _ => false
      end
  | Json_object_end :: rest =>
      match open with
      | In_object :: open' => well_formed_from open' rest
      | _ => false
      end
  | Json_string _ _ :: rest => negb (in_array open) && well_formed_from open rest
  | Json_bool _ _ :: rest => negb (in_array open) && well_formed_from open rest
  end.

Definition well_formed (js : json_stream) : bool := well_formed_from [] js.

Definition success_well_formed (e : event) : bool :=
  match e with
  | Ev_reply _ (reply_success js) => well_formed js
  | _ => true
  end.

(** The reference layer with a [plugin_send_getmanifest] that cannot
    submit its request and reports [err]. *)
Definition handshake_error_layer (fs : filesystem) (err : string) : PluginLayer := {|
  request := list string;
  param_subcommand := @param_subcommand (reference_layer fs);
  param_subcommand_only := @param_subcommand_only (reference_layer fs);
  param_subcommand_string := @param_subcommand_string (reference_layer fs);
  access := @access (reference_layer fs);
  strerror_errno := @strerror_errno (reference_layer fs);
  plugin_paths_match := @plugin_paths_match (reference_layer fs);
  do_plugin_register := @do_plugin_register (reference_layer fs);
  do_plugin_send_getmanifest := fun _ ps => (ps, Some err);
  do_plugins_send_getmanifest := @do_plugins_send_getmanifest (reference_layer fs);
  do_add_plugin_dir := @do_add_plugin_dir (reference_layer fs);
  do_plugins_add_default_dir := @do_plugins_add_default_dir (reference_layer fs);
  do_plugin_kill := @do_plugin_kill (reference_layer fs);
  cohort_size := @cohort_size (reference_layer fs)
|}.

(** The reference layer with a [param_subcommand] that does not check the
    token against the names it is given. *)
Definition unchecked_subcommand_layer (fs : filesystem) : PluginLayer := {|
  request := list string;
  param_subcommand := fun req _ => hd_error req;
  param_subcommand_only := @param_subcommand_only (reference_layer fs);
  param_subcommand_string := @param_subcommand_string (reference_layer fs);
  access := @access (reference_layer fs);
  strerror_errno := @strerror_errno (reference_layer fs);
  plugin_paths_match := @plugin_paths_match (reference_layer fs);
  do_plugin_register := @do_plugin_register (reference_layer fs);
  do_plugin_send_getmanifest := @do_plugin_send_getmanifest (reference_layer fs);
  do_plugins_send_getmanifest := @do_plugins_send_getmanifest (reference_layer fs);
  do_add_plugin_dir := @do_add_plugin_dir (reference_layer fs);
  do_plugins_add_default_dir := @do_plugins_add_default_dir (reference_layer fs);
  do_plugin_kill := @do_plugin_kill (reference_layer fs);
  cohort_size := @cohort_size (reference_layer fs)
|}.

(** The example daemon while one more plugin is still starting. *)
Definition example_ld_starting : lightningd :=
  mk_lightningd
    (plugins (example_ld false) ++ [mk_plugin "/opt/plugins/summary" true STARTING])
    false [].

(** * Properties *)

(** ** Strings *)

Lemma append_assoc_s (a b c : string) :
  ((a ++ b) ++ c)%string = (a ++ b ++ c)%string.
Proof.
  induction a as [|ch a IH]; simpl; [reflexivity | now rewrite IH].
Qed.

Lemma length_append_s (a b : string) :
  String.length (a ++ b)%string = String.length a + String.length b.
Proof.
  induction a as [|ch a IH]; simpl; [reflexivity | now rewrite IH].
Qed.

Lemma mentions_intro (pre sub post : string) :
  mentions (pre ++ sub ++ post)%string sub.
Proof. now exists pre, post. Qed.

Lemma mentions_cannot_be_managed (name : string) :
  mentions (name ++ " cannot be managed when lightningd is up")%string
           "cannot be managed".
Proof.
  exists (name ++ " ")%string, " when lightningd is up".
  now rewrite append_assoc_s.
Qed.

Lemma mentions_could_not_find (name : string) :
  mentions ("Could not find plugin " ++ name)%string "Could not find".
Proof. now exists "", (" plugin " ++ name)%string. Qed.

Lemma mentions_already_registered (path : string) :
  mentions (path ++ ": already registered")%string "already registered".
Proof.
  exists (path ++ ": ")%string, "".
  now rewrite append_assoc_s.
Qed.

Lemma stop_failures_differ (name : string) :
  (name ++ " cannot be managed when lightningd is up")%string
  <> ("Could not find plugin " ++ name)%string.
Proof.
  intros E. apply (f_equal String.length) in E.
  rewrite !length_append_s in E. simpl in E. lia.
Qed.

(** ** Traces *)

Lemma replies_to_app (cmd : command) (t u : list event) :
  replies_to cmd (t ++ u) = replies_to cmd t ++ replies_to cmd u.
Proof. unfold replies_to. apply flat_map_app. Qed.

Lemma replies_to_reply (cmd : command) (r : reply) :
  replies_to cmd [Ev_reply cmd r] = [r].
Proof. unfold replies_to; simpl. now rewrite Nat.eqb_refl. Qed.

Lemma killed_app (t u : list event) : killed (t ++ u) = killed t ++ killed u.
Proof. unfold killed. apply flat_map_app. Qed.

Lemma logged_logged (ld : lightningd) (es fs : list event) :
  logged (logged ld es) fs = logged ld (es ++ fs).
Proof. unfold logged; simpl. now rewrite app_assoc. Qed.

(** ** The response builder *)

Lemma fold_list_plugins_body (ps : list plugin) (acc : json_stream) :
  fold_left list_plugins_body ps acc = acc ++ flat_map list_entry ps.
Proof.
  revert acc; induction ps as [|p ps IH]; intros acc; simpl.
  - now rewrite app_nil_r.
  - rewrite IH. unfold list_plugins_body, json_object_end, json_add_bool,
      json_add_string, json_object_start.
    now rewrite <- !app_assoc.
Qed.

Lemma decode_entries_snapshot (ps : list plugin) :
  decode_entries (flat_map list_entry ps ++ [Json_array_end])
  = Some (snapshot ps).
Proof.
  induction ps as [|p ps IH]; [reflexivity|].
  cbn [flat_map list_entry app decode_entries].
  rewrite IH. reflexivity.
Qed.

Lemma list_plugins_run (cmd : command) (ps : list plugin) (ld : lightningd) :
  exists r : reply,
    plugin_dynamic_list_plugins cmd ps ld = (complete, logged ld [Ev_reply cmd r])
    /\ decode_list_reply r = Some (snapshot ps).
Proof.
  eexists; split; [reflexivity|].
  unfold json_array_end, json_array_start, json_stream_success.
  rewrite fold_list_plugins_body. simpl.
  apply decode_entries_snapshot.
Qed.

Lemma plugin_state_eqb_eq (a b : plugin_state) :
  plugin_state_eqb a b = true <-> a = b.
Proof. destruct a, b; simpl; split; congruence. Qed.

(** C7 -- the list handler always succeeds synchronously: it returns
    [complete] after handing the transport exactly one success reply, and
    that reply reads back as one [(name, active)] entry per registered
    plugin, in registry order, where [name] is the record's [cmd] and
    [active] is true exactly when its state is [INIT_COMPLETE]. *)
Theorem list_reply_enumerates_registry
  (cmd : command) (ps : list plugin) (ld : lightningd) :
  exists (js : json_stream) (entries : list (string * bool)),
    plugin_dynamic_list_plugins cmd ps ld
      = (complete, logged ld [Ev_reply cmd (reply_success js)])
    /\ decode_list_reply (reply_success js) = Some entries
    /\ length entries = length ps
    /\ (forall i : nat,
          nth_error entries i
          = option_map
              (fun p => (p_cmd p, plugin_state_eqb (p_state p) INIT_COMPLETE))
              (nth_error ps i))
    /\ (forall p : plugin,
          plugin_state_eqb (p_state p) INIT_COMPLETE = true
          <-> p_state p = INIT_COMPLETE).
Proof.
  destruct (list_plugins_run cmd ps ld) as [r [Hrun Hdec]].
  destruct r as [js|code msg]; [|discriminate Hdec].
  exists js, (snapshot ps). repeat split; auto.
  - unfold snapshot. apply length_map.
  - intros i. unfold snapshot. apply nth_error_map.
  - apply plugin_state_eqb_eq.
  - apply plugin_state_eqb_eq.
Qed.

(** ** Completion callbacks *)

Lemma deliver_replies (cmd : command) (s : completion_signal) (ld : lightningd) :
  exists r : reply, deliver cmd s ld = (complete, logged ld [Ev_reply cmd r]).
Proof.
  destruct s as [p|p msg|]; simpl.
  - unfold plugin_cmd_succeeded, bind, get_plugins.
    destruct (list_plugins_run cmd (plugins ld) ld) as [r [Hrun _]].
    exists r. exact Hrun.
  - eexists. reflexivity.
  - unfold plugin_cmd_all_complete, bind, get_plugins.
    destruct (list_plugins_run cmd (plugins ld) ld) as [r [Hrun _]].
    exists r. exact Hrun.
Qed.

Lemma deliver_all_cons (cmd : command) (s : completion_signal)
  (sigs : list completion_signal) (ld : lightningd) :
  deliver_all cmd (s :: sigs) ld = deliver_all cmd sigs (snd (deliver cmd s ld)).
Proof.
  simpl. unfold bind. now destruct (deliver cmd s ld).
Qed.

(** C1, as the code has it -- the callbacks keep no resolved flag: every
    completion signal delivered for a command hands the transport one
    more terminal reply for it, whatever was delivered before, so a run of
    [n] signals adds exactly [n] replies.  A command is replied to at most
    once only when the plugin layer delivers at most one signal for it. *)
Theorem deliver_all_replies_per_signal
  (cmd : command) (sigs : list completion_signal) (ld : lightningd) :
  length (replies_to cmd (trace (snd (deliver_all cmd sigs ld))))
  = length (replies_to cmd (trace ld)) + length sigs.
Proof.
  revert ld; induction sigs as [|s sigs IH]; intros ld.
  - simpl. lia.
  - rewrite deliver_all_cons, IH.
    destruct (deliver_replies cmd s ld) as [r Hr]. rewrite Hr. simpl.
    rewrite replies_to_app, replies_to_reply, length_app. simpl. lia.
Qed.

(** C1, counterexample -- a startdir cohort of three: the second member is
    killed, then the other two succeed.  The command receives three
    terminal replies, and the success delivered after the failure is not a
    no-op. *)
Lemma completion_signals_reply_twice :
  ~ (forall (cmd : command) (sigs : list completion_signal) (ld : lightningd),
        replies_to cmd (trace ld) = [] ->
        length (replies_to cmd (trace (snd (deliver_all cmd sigs ld)))) <= 1).
Proof.
  intros H.
  specialize (H 1
    [Sig_killed (mk_plugin "/opt/plugins/b" true STARTING) "exited";
     Sig_succeeded (mk_plugin "/opt/plugins/a" true INIT_COMPLETE);
     Sig_succeeded (mk_plugin "/opt/plugins/c" true INIT_COMPLETE)]
    (example_ld false) eq_refl).
  vm_compute in H. lia.
Qed.

(** ** The handlers, for any plugin layer *)

Section HandlerProperties.

Context `{PL : PluginLayer}.

Lemma stop_scan_not_found (cmd : command) (name : string) (ps : list plugin)
  (ld : lightningd) :
  find (fun p => plugin_paths_match (p_cmd p) name) ps = None ->
  stop_scan cmd name ps ld
  = (complete,
     logged ld [Ev_reply cmd (reply_fail JSONRPC2_INVALID_PARAMS
                                ("Could not find plugin " ++ name)%string)]).
Proof.
  induction ps as [|q ps IH]; simpl; intros Hfind; [reflexivity|].
  destruct (plugin_paths_match (p_cmd q) name); [discriminate | auto].
Qed.

Lemma stop_scan_static (cmd : command) (name : string) (ps : list plugin)
  (p : plugin) (ld : lightningd) :
  find (fun p => plugin_paths_match (p_cmd p) name) ps = Some p ->
  p_dynamic p = false ->
  stop_scan cmd name ps ld
  = (complete,
     logged ld [Ev_reply cmd (reply_fail JSONRPC2_INVALID_PARAMS
                  (name ++ " cannot be managed when lightningd is up")%string)]).
Proof.
  induction ps as [|q ps IH]; simpl; intros Hfind Hdyn; [discriminate|].
  destruct (plugin_paths_match (p_cmd q) name); [|auto].
  injection Hfind as ->. now rewrite Hdyn.
Qed.

Lemma stop_scan_dynamic (cmd : command) (name : string) (ps : list plugin)
  (p : plugin) (ld : lightningd) :
  find (fun p => plugin_paths_match (p_cmd p) name) ps = Some p ->
  p_dynamic p = true ->
  stop_scan cmd name ps ld
  = (complete,
     mk_lightningd
       (do_plugin_kill p "stopped by lightningd via RPC" (plugins ld))
       (deprecated_apis ld)
       (trace ld ++
          [Ev_plugin_kill p "stopped by lightningd via RPC";
           Ev_reply cmd
             (reply_success
                (if deprecated_apis ld
                 then [Json_string "" ("Successfully stopped " ++ name ++ ".")%string;
                       Json_string "result" ("Successfully stopped " ++ name ++ ".")%string]
                 else [Json_string "result" ("Successfully stopped " ++ name ++ ".")%string]))])).
Proof.
  induction ps as [|q ps IH]; simpl; intros Hfind Hdyn; [discriminate|].
  destruct (plugin_paths_match (p_cmd q) name); [|auto].
  injection Hfind as ->. rewrite Hdyn.
  destruct ld as [regs dep tr]; destruct dep;
    cbv [negb bind plugin_kill emit get_plugins set_plugins
         get_deprecated_apis command_success ret json_add_string
         json_stream_success plugins deprecated_apis trace];
    now rewrite <- app_assoc.
Qed.

(** C2, as the code has it -- when the first registered plugin matching
    the identifier is dynamic, the stop handler calls [plugin_kill] on that
    record and then resolves success synchronously; the reply carries the
    message "Successfully stopped <name>." under the "result" key and is
    not a registry snapshot. *)
Theorem stop_kills_then_replies
  (cmd : command) (name : string) (ld : lightningd) (p : plugin) :
  find_plugin (plugins ld) name = Some p ->
  p_dynamic p = true ->
  exists r : reply,
    plugin_dynamic_stop cmd name ld
    = (complete,
       mk_lightningd
         (do_plugin_kill p "stopped by lightningd via RPC" (plugins ld))
         (deprecated_apis ld)
         (trace ld ++ [Ev_plugin_kill p "stopped by lightningd via RPC";
                       Ev_reply cmd r]))
    /\ In ("result", ("Successfully stopped " ++ name ++ ".")%string)
          (string_members r)
    /\ decode_list_reply r = None.
Proof.
  intros Hfind Hdyn. eexists. split.
  - unfold plugin_dynamic_stop, bind, get_plugins.
    apply (stop_scan_dynamic cmd name (plugins ld) p ld Hfind Hdyn).
  - destruct (deprecated_apis ld); simpl; auto.
Qed.

(** C3 -- a stop request whose first matching record is not dynamic
    fails with InvalidParams and a detail mentioning "cannot be managed";
    one that matches no record fails with InvalidParams and a detail
    mentioning "Could not find"; for one identifier the two details are
    different strings.  Neither failure calls [plugin_kill]. *)
Theorem stop_failures (cmd : command) (name : string) (ld : lightningd) :
  (forall p : plugin,
      find_plugin (plugins ld) name = Some p -> p_dynamic p = false ->
      plugin_dynamic_stop cmd name ld
      = (complete,
         logged ld [Ev_reply cmd (reply_fail JSONRPC2_INVALID_PARAMS
                      (name ++ " cannot be managed when lightningd is up")%string)]))
  /\ (find_plugin (plugins ld) name = None ->
      plugin_dynamic_stop cmd name ld
      = (complete,
         logged ld [Ev_reply cmd (reply_fail JSONRPC2_INVALID_PARAMS
                      ("Could not find plugin " ++ name)%string)]))
  /\ mentions (name ++ " cannot be managed when lightningd is up")%string
              "cannot be managed"
  /\ mentions ("Could not find plugin " ++ name)%string "Could not find"
  /\ (name ++ " cannot be managed when lightningd is up")%string
     <> ("Could not find plugin " ++ name)%string.
Proof.
  split; [|split; [|split; [|split]]].
  - intros p Hfind Hdyn. unfold plugin_dynamic_stop, bind, get_plugins.
    apply (stop_scan_static cmd name (plugins ld) p ld Hfind Hdyn).
  - intros Hfind. unfold plugin_dynamic_stop, bind, get_plugins.
    apply (stop_scan_not_found cmd name (plugins ld) ld Hfind).
  - apply mentions_cannot_be_managed.
  - apply mentions_could_not_find.
  - apply stop_failures_differ.
Qed.

(** C4 -- a successful stop hands the transport one success reply.  With
    [deprecated_apis] set it holds the message "Successfully stopped
    <name>." under the empty key and again under "result", the same
    string both times; with the flag unset it holds the "result" member
    only. *)
Theorem stop_reply_members
  (cmd : command) (name : string) (ld : lightningd) (p : plugin) :
  find_plugin (plugins ld) name = Some p ->
  p_dynamic p = true ->
  exists js : json_stream,
    replies_to cmd (trace (snd (plugin_dynamic_stop cmd name ld)))
    = replies_to cmd (trace ld) ++ [reply_success js]
    /\ (deprecated_apis ld = true ->
        js = [Json_string "" ("Successfully stopped " ++ name ++ ".")%string;
              Json_string "result" ("Successfully stopped " ++ name ++ ".")%string])
    /\ (deprecated_apis ld = false ->
        js = [Json_string "result" ("Successfully stopped " ++ name ++ ".")%string]).
Proof.
  intros Hfind Hdyn. eexists. split.
  - unfold plugin_dynamic_stop, bind, get_plugins.
    rewrite (stop_scan_dynamic cmd name (plugins ld) p ld Hfind Hdyn). simpl.
    rewrite replies_to_app.
    change [Ev_plugin_kill p "stopped by lightningd via RPC"; Ev_reply cmd ?r]
      with ([Ev_plugin_kill p "stopped by lightningd via RPC"] ++ [Ev_reply cmd r]).
    rewrite replies_to_app, replies_to_reply. reflexivity.
  - split; intros ->; reflexivity.
Qed.

(** C5 -- when [plugin_register] answers that the path is already
    registered, the start handler fails synchronously with InvalidParams
    and a detail mentioning "already registered": it returns [complete],
    not [pending], the registry is as before, and besides the
    registration attempt and the failure reply it calls nothing -- no
    handshake is started and no cohort is opened. *)
Theorem start_already_registered
  (cmd : command) (plugin_path : string) (ld : lightningd) :
  do_plugin_register (plugins ld) plugin_path cmd = None ->
  exists es : list event,
    plugin_dynamic_start cmd plugin_path ld = (complete, logged ld es)
    /\ es = [Ev_plugin_register plugin_path cmd;
             Ev_reply cmd (reply_fail JSONRPC2_INVALID_PARAMS
                             (plugin_path ++ ": already registered")%string)]
    /\ mentions (plugin_path ++ ": already registered")%string
                "already registered"
    /\ filter is_handshake es = []
    /\ filter is_cohort es = [].
Proof.
  intros Hreg. eexists. split; [|split; [reflexivity|split]].
  - unfold plugin_dynamic_start, plugin_register, bind, emit, get_plugins.
    simpl. rewrite Hreg. unfold command_fail, bind, emit, ret, logged; simpl.
    now rewrite <- app_assoc.
  - apply mentions_already_registered.
  - split; reflexivity.
Qed.

(** C6, as the code has it -- a start request whose path fails
    [access(path, X_OK)] fails
    synchronously with InvalidParams; the failure reply is the only call
    made, so no registration is attempted and the registry is unchanged. *)
Theorem start_not_executable
  (cmd : command) (req : request) (plugin_path : string) (ld : lightningd) :
  param_subcommand req subcommands = Some "start" ->
  param_subcommand_string req "plugin" = Some plugin_path ->
  access plugin_path X_OK <> 0%Z ->
  exists (ld' : lightningd) (msg : string),
    json_plugin_control cmd req ld = Returned complete ld'
    /\ plugins ld' = plugins ld
    /\ trace ld' = trace ld ++ [Ev_reply cmd (reply_fail JSONRPC2_INVALID_PARAMS msg)]
    /\ msg = (plugin_path ++ " is not executable: "
                ++ strerror_errno plugin_path X_OK)%string
    /\ filter is_registration [Ev_reply cmd (reply_fail JSONRPC2_INVALID_PARAMS msg)]
       = [].
Proof.
  intros Hsub Hparam Hacc. do 2 eexists.
  unfold json_plugin_control. rewrite Hsub.
  unfold dispatch. simpl streq. cbv iota. rewrite Hparam.
  apply Z.eqb_neq in Hacc. rewrite Hacc.
  repeat split; reflexivity.
Qed.



(** *** Which records are killed *)

Ltac trace_extended :=
  eexists; split;
  [ simpl; rewrite <- ?app_assoc; simpl; try reflexivity;
    symmetry; apply app_nil_r
  | reflexivity ].

Lemma stop_scan_kills (cmd : command) (name : string) (ps : list plugin)
  (ld : lightningd) :
  exists es : list event,
    trace (snd (stop_scan cmd name ps ld)) = trace ld ++ es
    /\ forallb p_dynamic (killed es) = true.
Proof.
  induction ps as [|q ps IH]; simpl.
  - trace_extended.
  - destruct (plugin_paths_match (p_cmd q) name); [|exact IH].
    destruct (p_dynamic q) eqn:Hdyn; simpl.
    + exists [Ev_plugin_kill q "stopped by lightningd via RPC";
              Ev_reply cmd
                (reply_success
                   (json_add_string
                      (if deprecated_apis ld
                       then json_add_string (json_stream_success cmd) ""
                              ("Successfully stopped " ++ name ++ ".")%string
                       else json_stream_success cmd)
                      "result" ("Successfully stopped " ++ name ++ ".")%string))].
      split; [|simpl; now rewrite Hdyn].
      cbv [bind plugin_kill emit get_plugins set_plugins get_deprecated_apis
           command_success ret snd trace deprecated_apis].
      now rewrite <- app_assoc.
    + trace_extended.
Qed.

Lemma stop_kills (cmd : command) (name : string) (ld : lightningd) :
  exists es : list event,
    trace (snd (plugin_dynamic_stop cmd name ld)) = trace ld ++ es
    /\ forallb p_dynamic (killed es) = true.
Proof.
  unfold plugin_dynamic_stop, bind, get_plugins. apply stop_scan_kills.
Qed.

Lemma register_all_complete_kills (cmd : command) (ld : lightningd) :
  exists es : list event,
    trace (snd (plugin_register_all_complete cmd ld)) = trace ld ++ es
    /\ forallb p_dynamic (killed es) = true.
Proof.
  unfold plugin_register_all_complete, bind, get_plugins.
  destruct (cohort_size (plugins ld)); trace_extended.
Qed.

Lemma start_kills (cmd : command) (path : string) (ld : lightningd) :
  exists es : list event,
    trace (snd (plugin_dynamic_start cmd path ld)) = trace ld ++ es
    /\ forallb p_dynamic (killed es) = true.
Proof.
  unfold plugin_dynamic_start, plugin_register, plugin_send_getmanifest,
    bind, emit, get_plugins, set_plugins, ret. simpl.
  destruct (do_plugin_register (plugins ld) path cmd) as [[p ps']|]; simpl.
  - destruct (do_plugin_send_getmanifest p ps') as [ps'' [err|]]; trace_extended.
  - trace_extended.
Qed.

Lemma startdir_kills (cmd : command) (dir : string) (ld : lightningd) :
  exists es : list event,
    trace (snd (plugin_dynamic_startdir cmd dir ld)) = trace ld ++ es
    /\ forallb p_dynamic (killed es) = true.
Proof.
  unfold plugin_dynamic_startdir, add_plugin_dir, plugin_register_all_complete,
    plugins_send_getmanifest, bind, emit, get_plugins, set_plugins, ret. simpl.
  destruct (do_add_plugin_dir (plugins ld) dir false) as [ps' [err|]]; simpl.
  - trace_extended.
  - destruct (cohort_size ps'); trace_extended.
Qed.

Lemma rescan_kills (cmd : command) (ld : lightningd) :
  exists es : list event,
    trace (snd (plugin_dynamic_rescan_plugins cmd ld)) = trace ld ++ es
    /\ forallb p_dynamic (killed es) = true.
Proof.
  unfold plugin_dynamic_rescan_plugins, plugins_add_default_dir,
    plugin_register_all_complete, bind, emit, get_plugins, set_plugins, ret.
  simpl.
  destruct (cohort_size (do_plugins_add_default_dir (plugins ld)));
    trace_extended.
Qed.

Lemma returned_kills (m : M command_result) (ld : lightningd) :
  (exists es : list event,
      trace (snd (m ld)) = trace ld ++ es
      /\ forallb p_dynamic (killed es) = true) ->
  match returned m ld with
  | Returned _ ld' =>
      exists es : list event,
        trace ld' = trace ld ++ es /\ forallb p_dynamic (killed es) = true
  | Aborted => True
  end.
Proof. unfold returned. now destruct (m ld). Qed.

Lemma killed_in (es : list event) (p : plugin) (msg : string) :
  In (Ev_plugin_kill p msg) es -> In p (killed es).
Proof.
  intros Hin. unfold killed. apply in_flat_map.
  exists (Ev_plugin_kill p msg). split; [exact Hin | now left].
Qed.

Lemma json_plugin_control_kills (cmd : command) (req : request) (ld : lightningd) :
  match json_plugin_control cmd req ld with
  | Returned _ ld' =>
      exists es : list event,
        trace ld' = trace ld ++ es /\ forallb p_dynamic (killed es) = true
  | Aborted => True
  end.
Proof.
  unfold json_plugin_control.
  destruct (param_subcommand req subcommands) as [subcmd|];
    [|apply returned_kills; trace_extended].
  unfold dispatch.
  destruct (streq subcmd "stop").
  { destruct (param_subcommand_string req "plugin");
      apply returned_kills; [apply stop_kills | trace_extended]. }
  destruct (streq subcmd "start").
  { destruct (param_subcommand_string req "plugin") as [path|];
      [|apply returned_kills; trace_extended].
    destruct (access path X_OK =? 0)%Z; apply returned_kills;
      [apply start_kills | trace_extended]. }
  destruct (streq subcmd "startdir").
  { destruct (param_subcommand_string req "directory") as [dir|];
      [|apply returned_kills; trace_extended].
    destruct (access dir F_OK =? 0)%Z; apply returned_kills;
      [apply startdir_kills | trace_extended]. }
  destruct (streq subcmd "rescan").
  { destruct (param_subcommand_only req); cbn [negb]; apply returned_kills;
      [apply rescan_kills | trace_extended]. }
  destruct (streq subcmd "list"); [|exact I].
  destruct (param_subcommand_only req); cbn [negb]; apply returned_kills;
    trace_extended.
Qed.

(** C9 -- whatever the request and the state of the daemon, every call
    to [plugin_kill] that [json_plugin_control] makes is on a record
    whose [dynamic] flag is true. *)
Theorem kill_only_dynamic
  (cmd : command) (req : request) (ld : lightningd) :
  match json_plugin_control cmd req ld with
  | Returned _ ld' =>
      exists es : list event,
        trace ld' = trace ld ++ es
        /\ forall (p : plugin) (msg : string),
             In (Ev_plugin_kill p msg) es -> p_dynamic p = true
  | Aborted => True
  end.
Proof.
  pose proof (json_plugin_control_kills cmd req ld) as H.
  destruct (json_plugin_control cmd req ld) as [r ld'|]; [|exact I].
  destruct H as [es [Htrace Hall]]. exists es. split; [exact Htrace|].
  intros p msg Hin. rewrite forallb_forall in Hall.
  apply Hall. now apply (killed_in es p msg).
Qed.

(** *** The dispatcher *)

Lemma returned_is_returned (m : M command_result) (ld : lightningd) :
  exists (r : command_result) (ld' : lightningd), returned m ld = Returned r ld'.
Proof. unfold returned. destruct (m ld) as [r ld']. now exists r, ld'. Qed.

Lemma dispatch_returns (cmd : command) (req : request) (subcmd : string)
  (ld : lightningd) :
  In subcmd subcommands ->
  exists (r : command_result) (ld' : lightningd),
    dispatch cmd req subcmd ld = Returned r ld'.
Proof.
  unfold subcommands. simpl.
  intros [<-|[<-|[<-|[<-|[<-|[]]]]]]; unfold dispatch; simpl streq; cbv iota.
  - destruct (param_subcommand_string req "plugin") as [path|];
      [|apply returned_is_returned].
    destruct (access path X_OK =? 0)%Z; apply returned_is_returned.
  - destruct (param_subcommand_string req "plugin");
      apply returned_is_returned.
  - destruct (param_subcommand_string req "directory") as [dir|];
      [|apply returned_is_returned].
    destruct (access dir F_OK =? 0)%Z; apply returned_is_returned.
  - destruct (negb (param_subcommand_only req)); apply returned_is_returned.
  - destruct (negb (param_subcommand_only req)); apply returned_is_returned.
Qed.

(** Outside the five names the chain falls through to [abort()]. *)
Lemma dispatch_aborts_otherwise (cmd : command) (req : request)
  (subcmd : string) (ld : lightningd) :
  ~ In subcmd subcommands -> dispatch cmd req subcmd ld = Aborted.
Proof.
  unfold subcommands; simpl; intros Hnot. unfold dispatch, streq.
  destruct (String.eqb_spec subcmd "stop"); [exfalso; apply Hnot; subst; auto 10|].
  destruct (String.eqb_spec subcmd "start"); [exfalso; apply Hnot; subst; auto 10|].
  destruct (String.eqb_spec subcmd "startdir"); [exfalso; apply Hnot; subst; auto 10|].
  destruct (String.eqb_spec subcmd "rescan"); [exfalso; apply Hnot; subst; auto 10|].
  destruct (String.eqb_spec subcmd "list"); [exfalso; apply Hnot; subst; auto 10|].
  reflexivity.
Qed.

(** C10 -- when [param_subcommand] accepts the request with one of
    "start", "stop", "startdir", "rescan", "list", [json_plugin_control]
    returns a command result from the branch of that name: the [abort()]
    after the chain is not reached. *)
Theorem accepted_subcommand_never_aborts
  (cmd : command) (req : request) (subcmd : string) (ld : lightningd) :
  param_subcommand req subcommands = Some subcmd ->
  In subcmd subcommands ->
  json_plugin_control cmd req ld = dispatch cmd req subcmd ld
  /\ (exists (r : command_result) (ld' : lightningd),
         json_plugin_control cmd req ld = Returned r ld')
  /\ json_plugin_control cmd req ld <> Aborted.
Proof.
  intros Hsub Hin.
  assert (Heq : json_plugin_control cmd req ld = dispatch cmd req subcmd ld).
  { unfold json_plugin_control. now rewrite Hsub. }
  destruct (dispatch_returns cmd req subcmd ld Hin) as [r [ld' Hret]].
  split; [exact Heq|]. rewrite Heq, Hret. split; [now exists r, ld' | discriminate].
Qed.

(** A list request the parameter parser accepts reaches the list handler
    with the registry of the daemon. *)
Lemma json_plugin_control_list (cmd : command) (req : request) (ld : lightningd) :
  param_subcommand req subcommands = Some "list" ->
  param_subcommand_only req = true ->
  exists r : reply,
    json_plugin_control cmd req ld = Returned complete (logged ld [Ev_reply cmd r])
    /\ decode_list_reply r = Some (snapshot (plugins ld)).
Proof.
  intros Hsub Hparam. unfold json_plugin_control. rewrite Hsub.
  unfold dispatch. simpl streq. cbv iota. rewrite Hparam. cbn [negb].
  destruct (list_plugins_run cmd (plugins ld) ld) as [r [Hrun Hdec]].
  exists r. split; [|exact Hdec].
  unfold returned, bind, get_plugins. now rewrite Hrun.
Qed.

(** A start request for an executable path reaches the start handler. *)
Lemma json_plugin_control_start (cmd : command) (req : request)
  (plugin_path : string) (ld : lightningd) :
  param_subcommand req subcommands = Some "start" ->
  param_subcommand_string req "plugin" = Some plugin_path ->
  access plugin_path X_OK = 0%Z ->
  json_plugin_control cmd req ld
  = returned (plugin_dynamic_start cmd plugin_path) ld.
Proof.
  intros Hsub Hparam Hacc. unfold json_plugin_control. rewrite Hsub.
  unfold dispatch. simpl streq. cbv iota. now rewrite Hparam, Hacc.
Qed.

End HandlerProperties.

(** ** The handlers on the example daemon *)

(** C2, counterexample -- [plugin stop foo] on the example daemon, where
    [foo] is dynamic and active: the one reply is the stop message.  It
    does not read back as a registry snapshot, and it is neither the list
    reply for the registry before the kill nor the one for the registry
    after it. *)
Lemma stop_reply_is_not_snapshot :
  replies_to 1
    (trace (snd (@plugin_dynamic_stop example_layer 1 "foo" (example_ld false))))
  = [reply_success [Json_string "result" "Successfully stopped foo."]]
  /\ decode_list_reply
       (reply_success [Json_string "result" "Successfully stopped foo."])
     = None
  /\ replies_to 1
       (trace (snd (@plugin_dynamic_stop example_layer 1 "foo" (example_ld false))))
     <> replies_to 1
          (trace (snd (plugin_dynamic_list_plugins 1
                         (plugins (example_ld false)) (example_ld false))))
  /\ replies_to 1
       (trace (snd (@plugin_dynamic_stop example_layer 1 "foo" (example_ld false))))
     <> replies_to 1
          (trace (snd (plugin_dynamic_list_plugins 1
                         (plugins (snd (@plugin_dynamic_stop example_layer 1 "foo"
                                          (example_ld false))))
                         (example_ld false)))).
Proof.
  repeat split; try reflexivity; vm_compute; discriminate.
Qed.

Lemma stop_kills_then_replies_witness :
  exists r : reply,
    @plugin_dynamic_stop example_layer 1 "foo" (example_ld true)
    = (complete,
       mk_lightningd
         (@do_plugin_kill example_layer example_foo
            "stopped by lightningd via RPC" (plugins (example_ld true)))
         true
         [Ev_plugin_kill example_foo "stopped by lightningd via RPC";
          Ev_reply 1 r])
    /\ In ("result", "Successfully stopped foo.") (string_members r)
    /\ decode_list_reply r = None.
Proof.
  exact (@stop_kills_then_replies example_layer 1 "foo" (example_ld true)
           example_foo eq_refl eq_refl).
Defined.

Lemma stop_failures_witness :
  @plugin_dynamic_stop example_layer 1 "autoclean" (example_ld false)
  = (complete,
     logged (example_ld false)
       [Ev_reply 1 (reply_fail JSONRPC2_INVALID_PARAMS
                      "autoclean cannot be managed when lightningd is up")])
  /\ @plugin_dynamic_stop example_layer 1 "nope" (example_ld false)
     = (complete,
        logged (example_ld false)
          [Ev_reply 1 (reply_fail JSONRPC2_INVALID_PARAMS
                         "Could not find plugin nope")]).
Proof.
  split.
  - exact (proj1 (@stop_failures example_layer 1 "autoclean" (example_ld false))
             example_autoclean eq_refl eq_refl).
  - exact (proj1 (proj2 (@stop_failures example_layer 1 "nope" (example_ld false)))
             eq_refl).
Defined.

Lemma stop_reply_members_witness :
  (exists js : json_stream,
      replies_to 1
        (trace (snd (@plugin_dynamic_stop example_layer 1 "foo" (example_ld true))))
      = [reply_success js]
      /\ js = [Json_string "" "Successfully stopped foo.";
               Json_string "result" "Successfully stopped foo."])
  /\ (exists js : json_stream,
         replies_to 1
           (trace (snd (@plugin_dynamic_stop example_layer 1 "foo" (example_ld false))))
         = [reply_success js]
         /\ js = [Json_string "result" "Successfully stopped foo."]).
Proof.
  split.
  - destruct (@stop_reply_members example_layer 1 "foo" (example_ld true)
                example_foo eq_refl eq_refl) as [js [Hrep [Hset _]]].
    exists js. split; [exact Hrep | exact (Hset eq_refl)].
  - destruct (@stop_reply_members example_layer 1 "foo" (example_ld false)
                example_foo eq_refl eq_refl) as [js [Hrep [_ Hunset]]].
    exists js. split; [exact Hrep | exact (Hunset eq_refl)].
Defined.

Lemma start_already_registered_witness :
  exists es : list event,
    @plugin_dynamic_start example_layer 1 "/bin/true" (example_ld false)
    = (complete, logged (example_ld false) es)
    /\ es = [Ev_plugin_register "/bin/true" 1;
             Ev_reply 1 (reply_fail JSONRPC2_INVALID_PARAMS
                           "/bin/true: already registered")]
    /\ mentions "/bin/true: already registered" "already registered"
    /\ filter is_handshake es = []
    /\ filter is_cohort es = [].
Proof.
  exact (@start_already_registered example_layer 1 "/bin/true"
           (example_ld false) eq_refl).
Defined.

Lemma start_not_executable_witness :
  exists (ld' : lightningd) (msg : string),
    @json_plugin_control example_layer 1 ["start"; "/bin/false"] (example_ld false)
    = Returned complete ld'
    /\ plugins ld' = plugins (example_ld false)
    /\ trace ld' = [Ev_reply 1 (reply_fail JSONRPC2_INVALID_PARAMS msg)]
    /\ msg = "/bin/false is not executable: No such file or directory"
    /\ filter is_registration [Ev_reply 1 (reply_fail JSONRPC2_INVALID_PARAMS msg)]
       = [].
Proof.
  apply (@start_not_executable example_layer 1 ["start"; "/bin/false"]
           "/bin/false" (example_ld false)).
  - reflexivity.
  - reflexivity.
  - vm_compute. discriminate.
Defined.


Lemma accepted_subcommand_never_aborts_witness :
  @param_subcommand example_layer ["rescan"] subcommands = Some "rescan"
  /\ @json_plugin_control example_layer 1 ["rescan"] (example_ld false)
     <> Aborted.
Proof.
  split; [reflexivity|].
  apply (@accepted_subcommand_never_aborts example_layer 1 ["rescan"] "rescan"
           (example_ld false)).
  - reflexivity.
  - simpl. auto 10.
Defined.

(** The example daemon: a request outside the five names is refused by
    the parameter parser of the reference layer, and never dispatched. *)
Example bogus_subcommand_refused :
  @json_plugin_control example_layer 1 ["bogus"] (example_ld false)
  = Returned param_failed (example_ld false).
Proof. reflexivity. Qed.

(** The example daemon: a startdir that registers one new plugin opens a
    cohort of one and stays pending. *)
Example startdir_pending :
  fst (@plugin_dynamic_startdir example_layer 1 "/opt/plugins" (example_ld false))
  = pending.
Proof. reflexivity. Qed.

(** * Further properties of the handlers *)

(** ** The list reply in closed form *)

Lemma list_plugins_exact (cmd : command) (ps : list plugin) (ld : lightningd) :
  plugin_dynamic_list_plugins cmd ps ld
  = (complete, logged ld [Ev_reply cmd (reply_success (list_response ps))]).
Proof.
  unfold plugin_dynamic_list_plugins, json_array_end, json_array_start,
    json_stream_success.
  rewrite fold_list_plugins_body. reflexivity.
Qed.

Lemma list_entries_well_formed (ps : list plugin) (open : list bracket)
  (rest : json_stream) :
  well_formed_from (In_array :: open) (flat_map list_entry ps ++ rest)
  = well_formed_from (In_array :: open) rest.
Proof.
  induction ps as [|p ps IH]; [reflexivity|].
  cbn [flat_map list_entry app well_formed_from name_fits in_array negb andb].
  exact IH.
Qed.

Lemma list_response_well_formed (ps : list plugin) :
  well_formed (list_response ps) = true.
Proof.
  unfold well_formed, list_response.
  cbn [well_formed_from name_fits in_array negb andb].
  now rewrite list_entries_well_formed.
Qed.

Lemma list_response_length (ps : list plugin) :
  length (list_response ps) = 4 * length ps + 2.
Proof.
  unfold list_response. simpl. rewrite length_app. simpl.
  induction ps as [|p ps IH]; simpl in *; lia.
Qed.

Lemma list_response_decodes (ps : list plugin) :
  decode_list_reply (reply_success (list_response ps)) = Some (snapshot ps).
Proof.
  unfold list_response. cbn [decode_list_reply]. simpl String.eqb. cbv iota.
  apply decode_entries_snapshot.
Qed.

Lemma list_entry_snapshot (p q : plugin) :
  (p_cmd p, plugin_state_eqb (p_state p) INIT_COMPLETE)
  = (p_cmd q, plugin_state_eqb (p_state q) INIT_COMPLETE) ->
  list_entry p = list_entry q.
Proof. unfold list_entry. now intros [= -> ->]. Qed.

Lemma list_response_snapshot (ps qs : list plugin) :
  snapshot ps = snapshot qs -> list_response ps = list_response qs.
Proof.
  unfold list_response. intros Hsnap. do 2 f_equal.
  revert qs Hsnap; induction ps as [|p ps IH]; intros [|q qs] Hsnap;
    try discriminate; [reflexivity|].
  simpl in Hsnap. injection Hsnap as Hn Ha Hrest.
  cbn [flat_map]. rewrite (IH qs Hrest). f_equal.
  apply list_entry_snapshot. congruence.
Qed.

(** ** Case principles

    Each handler is determined by the answers of the plugin layer.  A
    property of a handler's result follows from the property on each of
    its paths. *)

Section HandlerCases.

Context `{PL : PluginLayer}.

Variable Q : command_result * lightningd -> Prop.

Lemma stop_cases (cmd : command) (name : string) (ld : lightningd) :
  (find_plugin (plugins ld) name = None ->
   Q (complete,
      logged ld [Ev_reply cmd (reply_fail JSONRPC2_INVALID_PARAMS
                   ("Could not find plugin " ++ name)%string)])) ->
  (forall p : plugin,
      find_plugin (plugins ld) name = Some p -> p_dynamic p = false ->
      Q (complete,
         logged ld [Ev_reply cmd (reply_fail JSONRPC2_INVALID_PARAMS
                      (name ++ " cannot be managed when lightningd is up")%string)])) ->
  (forall p : plugin,
      find_plugin (plugins ld) name = Some p -> p_dynamic p = true ->
      Q (complete,
         mk_lightningd
           (do_plugin_kill p "stopped by lightningd via RPC" (plugins ld))
           (deprecated_apis ld)
           (trace ld ++
              [Ev_plugin_kill p "stopped by lightningd via RPC";
               Ev_reply cmd
                 (reply_success
                    (if deprecated_apis ld
                     then [Json_string "" ("Successfully stopped " ++ name ++ ".")%string;
                           Json_string "result" ("Successfully stopped " ++ name ++ ".")%string]
                     else [Json_string "result" ("Successfully stopped " ++ name ++ ".")%string]))]))) ->
  Q (plugin_dynamic_stop cmd name ld).
Proof.
  intros Hnone Hstatic Hdynamic.
  unfold plugin_dynamic_stop, bind, get_plugins.
  destruct (find_plugin (plugins ld) name) as [p|] eqn:Hfind.
  - destruct (p_dynamic p) eqn:Hdyn.
    + rewrite (stop_scan_dynamic cmd name (plugins ld) p ld Hfind Hdyn). auto.
    + rewrite (stop_scan_static cmd name (plugins ld) p ld Hfind Hdyn). eauto.
  - rewrite (stop_scan_not_found cmd name (plugins ld) ld Hfind). auto.
Qed.

Lemma start_cases (cmd : command) (path : string) (ld : lightningd) :
  (do_plugin_register (plugins ld) path cmd = None ->
   Q (complete,
      logged ld [Ev_plugin_register path cmd;
                 Ev_reply cmd (reply_fail JSONRPC2_INVALID_PARAMS
                                 (path ++ ": already registered")%string)])) ->
  (forall (p : plugin) (ps1 ps2 : list plugin) (err : string),
      do_plugin_register (plugins ld) path cmd = Some (p, ps1) ->
      do_plugin_send_getmanifest p ps1 = (ps2, Some err) ->
      Q (complete,
         mk_lightningd ps2 (deprecated_apis ld)
           (trace ld ++
              [Ev_plugin_register path cmd; Ev_plugin_send_getmanifest p;
               Ev_reply cmd (reply_fail PLUGIN_ERROR (path ++ ": " ++ err)%string)]))) ->
  (forall (p : plugin) (ps1 ps2 : list plugin),
      do_plugin_register (plugins ld) path cmd = Some (p, ps1) ->
      do_plugin_send_getmanifest p ps1 = (ps2, None) ->
      Q (pending,
         mk_lightningd ps2 (deprecated_apis ld)
           (trace ld ++
              [Ev_plugin_register path cmd; Ev_plugin_send_getmanifest p]))) ->
  Q (plugin_dynamic_start cmd path ld).
Proof.
  intros Hknown Herr Hok.
  unfold plugin_dynamic_start, plugin_register, plugin_send_getmanifest,
    bind, emit, get_plugins, set_plugins, ret. simpl.
  destruct (do_plugin_register (plugins ld) path cmd) as [[p ps1]|] eqn:Hreg;
    simpl.
  - destruct (do_plugin_send_getmanifest p ps1) as [ps2 [err|]] eqn:Hsend;
      simpl.
    + specialize (Herr p ps1 ps2 err eq_refl Hsend).
      unfold command_fail, bind, emit, ret; simpl.
      now rewrite <- !app_assoc.
    + specialize (Hok p ps1 ps2 eq_refl Hsend).
      unfold command_still_pending, ret. now rewrite <- app_assoc.
  - specialize (Hknown eq_refl).
    unfold command_fail, bind, emit, ret, logged in *; simpl.
    now rewrite <- app_assoc.
Qed.

Lemma startdir_cases (cmd : command) (dir : string) (ld : lightningd) :
  (forall (ps' : list plugin) (err : string),
      do_add_plugin_dir (plugins ld) dir false = (ps', Some err) ->
      Q (complete,
         mk_lightningd ps' (deprecated_apis ld)
           (trace ld ++
              [Ev_add_plugin_dir dir;
               Ev_reply cmd (reply_fail JSONRPC2_INVALID_PARAMS err)]))) ->
  (forall ps' : list plugin,
      do_add_plugin_dir (plugins ld) dir false = (ps', None) ->
      cohort_size ps' = 0 ->
      Q (complete,
         mk_lightningd ps' (deprecated_apis ld)
           (trace ld ++
              [Ev_add_plugin_dir dir;
               Ev_reply cmd (reply_success (list_response ps'))]))) ->
  (forall (ps' : list plugin) (k : nat),
      do_add_plugin_dir (plugins ld) dir false = (ps', None) ->
      cohort_size ps' = S k ->
      Q (pending,
         mk_lightningd (do_plugins_send_getmanifest ps') (deprecated_apis ld)
           (trace ld ++
              [Ev_add_plugin_dir dir; Ev_cohort_opened cmd (S k);
               Ev_plugins_send_getmanifest]))) ->
  Q (plugin_dynamic_startdir cmd dir ld).
Proof.
  intros Herr Hempty Hcohort.
  unfold plugin_dynamic_startdir, add_plugin_dir, bind, emit, get_plugins,
    set_plugins, ret. cbn [plugins deprecated_apis trace].
  destruct (do_add_plugin_dir (plugins ld) dir false) as [ps' [err|]] eqn:Hadd;
    cbn [plugins deprecated_apis trace].
  - specialize (Herr ps' err eq_refl).
    unfold command_fail, bind, emit, ret; cbn [plugins deprecated_apis trace].
    now rewrite <- app_assoc.
  - unfold plugin_register_all_complete, bind, get_plugins.
    cbn [plugins deprecated_apis trace].
    destruct (cohort_size ps') as [|k] eqn:Hk.
    + specialize (Hempty ps' eq_refl Hk).
      unfold plugin_cmd_all_complete. rewrite list_plugins_exact.
      unfold logged, ret; cbn [plugins deprecated_apis trace].
      now rewrite <- app_assoc.
    + specialize (Hcohort ps' k eq_refl Hk).
      unfold plugins_send_getmanifest, command_still_pending, bind, emit,
        get_plugins, set_plugins, ret; cbn [plugins deprecated_apis trace].
      now rewrite <- !app_assoc.
Qed.

Lemma rescan_cases (cmd : command) (ld : lightningd) :
  (cohort_size (do_plugins_add_default_dir (plugins ld)) = 0 ->
   Q (complete,
      mk_lightningd (do_plugins_add_default_dir (plugins ld)) (deprecated_apis ld)
        (trace ld ++
           [Ev_plugins_add_default_dir;
            Ev_reply cmd
              (reply_success
                 (list_response (do_plugins_add_default_dir (plugins ld))))]))) ->
  (forall k : nat,
      cohort_size (do_plugins_add_default_dir (plugins ld)) = S k ->
      Q (pending,
         mk_lightningd (do_plugins_add_default_dir (plugins ld)) (deprecated_apis ld)
           (trace ld ++ [Ev_plugins_add_default_dir; Ev_cohort_opened cmd (S k)]))) ->
  Q (plugin_dynamic_rescan_plugins cmd ld).
Proof.
  intros Hempty Hcohort.
  unfold plugin_dynamic_rescan_plugins, plugins_add_default_dir,
    plugin_register_all_complete, bind, emit, get_plugins, set_plugins, ret.
  cbn [plugins deprecated_apis trace].
  destruct (cohort_size (do_plugins_add_default_dir (plugins ld))) as [|k] eqn:Hk.
  - specialize (Hempty eq_refl).
    unfold plugin_cmd_all_complete. rewrite list_plugins_exact.
    unfold logged, ret; cbn [plugins deprecated_apis trace].
    now rewrite <- app_assoc.
  - specialize (Hcohort k eq_refl).
    unfold command_still_pending, bind, emit, ret;
      cbn [plugins deprecated_apis trace].
    now rewrite <- app_assoc.
Qed.

Lemma returned_cases (m : M command_result) (ld : lightningd) :
  Q (m ld) ->
  match returned m ld with
  | Returned r ld' => Q (r, ld')
  | Aborted => True
  end.
Proof. unfold returned. now destruct (m ld). Qed.

Lemma control_cases (cmd : command) (req : request) (ld : lightningd) :
  Q (param_failed, ld) ->
  (param_subcommand req subcommands = Some "stop" ->
   forall name : string,
     param_subcommand_string req "plugin" = Some name ->
     Q (plugin_dynamic_stop cmd name ld)) ->
  (param_subcommand req subcommands = Some "start" ->
   forall path : string,
     param_subcommand_string req "plugin" = Some path ->
     access path X_OK = 0%Z ->
     Q (plugin_dynamic_start cmd path ld)) ->
  (param_subcommand req subcommands = Some "start" ->
   forall path : string,
     param_subcommand_string req "plugin" = Some path ->
     access path X_OK <> 0%Z ->
     Q (complete,
        logged ld [Ev_reply cmd (reply_fail JSONRPC2_INVALID_PARAMS
                     (path ++ " is not executable: "
                        ++ strerror_errno path X_OK)%string)])) ->
  (param_subcommand req subcommands = Some "startdir" ->
   forall dir : string,
     param_subcommand_string req "directory" = Some dir ->
     access dir F_OK = 0%Z ->
     Q (plugin_dynamic_startdir cmd dir ld)) ->
  (param_subcommand req subcommands = Some "startdir" ->
   forall dir : string,
     param_subcommand_string req "directory" = Some dir ->
     access dir F_OK <> 0%Z ->
     Q (complete,
        logged ld [Ev_reply cmd (reply_fail JSONRPC2_INVALID_PARAMS
                     ("Could not open " ++ dir)%string)])) ->
  (param_subcommand req subcommands = Some "rescan" ->
   param_subcommand_only req = true ->
   Q (plugin_dynamic_rescan_plugins cmd ld)) ->
  (param_subcommand req subcommands = Some "list" ->
   param_subcommand_only req = true ->
   Q (complete,
      logged ld [Ev_reply cmd (reply_success (list_response (plugins ld)))])) ->
  match json_plugin_control cmd req ld with
  | Returned r ld' => Q (r, ld')
  | Aborted => True
  end.
Proof.
  intros Hfailed Hstop Hstart Hnoexec Hdir Hnodir Hrescan Hlist.
  unfold json_plugin_control.
  destruct (param_subcommand req subcommands) as [subcmd|] eqn:Hsub;
    [|now apply returned_cases].
  unfold dispatch, streq.
  destruct (String.eqb_spec subcmd "stop") as [->|_].
  { destruct (param_subcommand_string req "plugin") as [name|] eqn:Hp;
      apply returned_cases; auto. }
  destruct (String.eqb_spec subcmd "start") as [->|_].
  { destruct (param_subcommand_string req "plugin") as [path|] eqn:Hp;
      [|now apply returned_cases].
    destruct (Z.eqb_spec (access path X_OK) 0); apply returned_cases; auto.
    now apply Hnoexec. }
  destruct (String.eqb_spec subcmd "startdir") as [->|_].
  { destruct (param_subcommand_string req "directory") as [dir|] eqn:Hp;
      [|now apply returned_cases].
    destruct (Z.eqb_spec (access dir F_OK) 0); apply returned_cases; auto.
    now apply Hnodir. }
  destruct (String.eqb_spec subcmd "rescan") as [->|_].
  { destruct (param_subcommand_only req) eqn:Hp; cbn [negb];
      apply returned_cases; auto. }
  destruct (String.eqb_spec subcmd "list") as [->|_]; [|exact I].
  destruct (param_subcommand_only req) eqn:Hp; cbn [negb];
    apply returned_cases; auto.
  unfold bind, get_plugins. rewrite list_plugins_exact. auto.
Qed.

End HandlerCases.

(** ** Replies and result markers *)

Ltac on_trace :=
  cbn [fst snd]; unfold logged; cbn [plugins deprecated_apis trace];
  eexists; split;
  [ first [ reflexivity | symmetry; apply app_nil_r ]
  | try reflexivity ].

Section ControlProperties.

Context `{PL : PluginLayer}.


(** X2 -- a call that returns [param_failed] has done nothing beyond
    parsing: the daemon (registry, flag and trace) is exactly as before,
    so this file registered, started and killed nothing and sent no
    reply of its own. *)
Theorem param_failed_changes_nothing
  (cmd : command) (req : request) (ld ld' : lightningd) :
  json_plugin_control cmd req ld = Returned param_failed ld' -> ld' = ld.
Proof.
  intros Hret.
  pose (Q := fun res : command_result * lightningd =>
               fst res = param_failed -> snd res = ld).
  assert (Hall : match json_plugin_control cmd req ld with
                 | Returned r l => Q (r, l)
                 | Aborted => True
                 end).
  { apply (control_cases Q); intros;
      [ | apply stop_cases | apply start_cases | | apply startdir_cases |
        | apply rescan_cases | ];
      intros; subst Q; cbn [fst snd]; intros; first [reflexivity | discriminate]. }
  rewrite Hret in Hall. now apply Hall.
Qed.

(** X3 -- a startdir request whose directory fails [access(dir, F_OK)]
    fails synchronously with InvalidParams "Could not open <dir>"; that
    reply is the only call made, so [add_plugin_dir] is not called and the
    registry is unchanged. *)
Theorem startdir_cannot_open
  (cmd : command) (req : request) (dir_path : string) (ld : lightningd) :
  param_subcommand req subcommands = Some "startdir" ->
  param_subcommand_string req "directory" = Some dir_path ->
  access dir_path F_OK <> 0%Z ->
  json_plugin_control cmd req ld
  = Returned complete
      (logged ld [Ev_reply cmd (reply_fail JSONRPC2_INVALID_PARAMS
                    ("Could not open " ++ dir_path)%string)]).
Proof.
  intros Hsub Hparam Hacc.
  unfold json_plugin_control. rewrite Hsub.
  unfold dispatch. simpl streq. cbv iota. rewrite Hparam.
  apply Z.eqb_neq in Hacc. now rewrite Hacc.
Qed.

(** X4 -- when [add_plugin_dir] reports an error, the startdir handler
    fails synchronously with InvalidParams and that error text verbatim
    as the detail.  It starts no handshake, opens no cohort, and leaves
    the registry as [add_plugin_dir] left it: nothing is rolled back. *)
Theorem startdir_add_error
  (cmd : command) (dir_path : string) (ld : lightningd)
  (ps' : list plugin) (err : string) :
  do_add_plugin_dir (plugins ld) dir_path false = (ps', Some err) ->
  plugin_dynamic_startdir cmd dir_path ld
  = (complete,
     mk_lightningd ps' (deprecated_apis ld)
       (trace ld ++ [Ev_add_plugin_dir dir_path;
                     Ev_reply cmd (reply_fail JSONRPC2_INVALID_PARAMS err)])).
Proof.
  intros Hadd.
  apply (startdir_cases (fun res => res = _)); intros;
    rewrite Hadd in *; congruence.
Qed.

(** X5 -- when [add_plugin_dir] succeeds and handshakes are outstanding,
    the startdir handler sends no reply and returns [pending]: the
    command is kept with its cohort, then [plugins_send_getmanifest] is
    called, once. *)
Theorem startdir_pending_cohort
  (cmd : command) (dir_path : string) (ld : lightningd)
  (ps' : list plugin) (k : nat) :
  do_add_plugin_dir (plugins ld) dir_path false = (ps', None) ->
  cohort_size ps' = S k ->
  plugin_dynamic_startdir cmd dir_path ld
  = (pending,
     mk_lightningd (do_plugins_send_getmanifest ps') (deprecated_apis ld)
       (trace ld ++ [Ev_add_plugin_dir dir_path; Ev_cohort_opened cmd (S k);
                     Ev_plugins_send_getmanifest])).
Proof.
  intros Hadd Hk.
  apply (startdir_cases (fun res => res = _)); intros;
    rewrite Hadd in *; congruence.
Qed.

(** X6 -- when the new plugin is registered but [plugin_send_getmanifest]
    reports an error, the start handler fails synchronously with
    PLUGIN_ERROR and the detail "<path>: <error>".  It does not call
    [plugin_kill]: the registry stays as the plugin layer left it, with
    the record still registered. *)
Theorem start_handshake_error
  (cmd : command) (plugin_path : string) (ld : lightningd)
  (p : plugin) (ps1 ps2 : list plugin) (err : string) :
  do_plugin_register (plugins ld) plugin_path cmd = Some (p, ps1) ->
  do_plugin_send_getmanifest p ps1 = (ps2, Some err) ->
  plugin_dynamic_start cmd plugin_path ld
  = (complete,
     mk_lightningd ps2 (deprecated_apis ld)
       (trace ld ++
          [Ev_plugin_register plugin_path cmd; Ev_plugin_send_getmanifest p;
           Ev_reply cmd (reply_fail PLUGIN_ERROR
                           (plugin_path ++ ": " ++ err)%string)])).
Proof.
  intros Hreg Hsend.
  apply (start_cases (fun res => res = _)); intros;
    rewrite Hreg in *; try discriminate;
    match goal with H : Some _ = Some _ |- _ => injection H as <- <- end;
    rewrite Hsend in *; congruence.
Qed.

(** X7 -- when the plugin is registered and its getmanifest request is
    submitted, the start handler sends no reply and returns [pending]:
    the handshake is started on the very record [plugin_register]
    returned, and the answer is left to the completion callbacks. *)
Theorem start_pending
  (cmd : command) (plugin_path : string) (ld : lightningd)
  (p : plugin) (ps1 ps2 : list plugin) :
  do_plugin_register (plugins ld) plugin_path cmd = Some (p, ps1) ->
  do_plugin_send_getmanifest p ps1 = (ps2, None) ->
  plugin_dynamic_start cmd plugin_path ld
  = (pending,
     mk_lightningd ps2 (deprecated_apis ld)
       (trace ld ++
          [Ev_plugin_register plugin_path cmd; Ev_plugin_send_getmanifest p])).
Proof.
  intros Hreg Hsend.
  apply (start_cases (fun res => res = _)); intros;
    rewrite Hreg in *; try discriminate;
    match goal with H : Some _ = Some _ |- _ => injection H as <- <- end;
    rewrite Hsend in *; congruence.
Qed.


End ControlProperties.

(** ** What a request can do *)

Section ControlInvariants.

Context `{PL : PluginLayer}.

Lemma find_first_match (name : string) (pre : list plugin) (p : plugin)
  (post : list plugin) :
  forallb (fun q => negb (plugin_paths_match (p_cmd q) name)) pre = true ->
  plugin_paths_match (p_cmd p) name = true ->
  find_plugin (pre ++ p :: post) name = Some p.
Proof.
  unfold find_plugin. induction pre as [|q pre IH]; simpl; intros Hpre Hp.
  - now rewrite Hp.
  - apply andb_prop in Hpre. destruct Hpre as [Hq Hpre].
    apply negb_true_iff in Hq. rewrite Hq. auto.
Qed.

(** X9 -- the stop loop stops at the first record whose path matches:
    the records behind it are never examined.  Two registries that agree
    up to and including the first match give the same result marker and
    the same calls, whatever follows -- also when a later record matches
    the same name. *)
Theorem stop_decided_by_first_match
  (cmd : command) (name : string) (pre : list plugin) (p : plugin)
  (post1 post2 : list plugin) (dep : bool) (t : list event) :
  forallb (fun q => negb (plugin_paths_match (p_cmd q) name)) pre = true ->
  plugin_paths_match (p_cmd p) name = true ->
  fst (plugin_dynamic_stop cmd name (mk_lightningd (pre ++ p :: post1) dep t))
  = fst (plugin_dynamic_stop cmd name (mk_lightningd (pre ++ p :: post2) dep t))
  /\ trace (snd (plugin_dynamic_stop cmd name
                   (mk_lightningd (pre ++ p :: post1) dep t)))
     = trace (snd (plugin_dynamic_stop cmd name
                     (mk_lightningd (pre ++ p :: post2) dep t))).
Proof.
  intros Hpre Hp.
  pose proof (find_first_match name pre p post1 Hpre Hp) as H1.
  pose proof (find_first_match name pre p post2 Hpre Hp) as H2.
  unfold plugin_dynamic_stop, bind, get_plugins. cbn [plugins].
  destruct (p_dynamic p) eqn:Hdyn.
  - rewrite (stop_scan_dynamic cmd name _ p _ H1 Hdyn).
    rewrite (stop_scan_dynamic cmd name _ p _ H2 Hdyn). now split.
  - rewrite (stop_scan_static cmd name _ p _ H1 Hdyn).
    rewrite (stop_scan_static cmd name _ p _ H2 Hdyn). now split.
Qed.

(** X10 -- a request kills at most one plugin, and only a stop request
    kills at all: for every other subcommand [plugin_kill] is not called,
    also not when a handshake cannot be submitted or a directory cannot
    be read. *)
Theorem at_most_one_kill
  (cmd : command) (req : request) (ld : lightningd) :
  match json_plugin_control cmd req ld with
  | Returned r ld' =>
      exists es : list event,
        trace ld' = trace ld ++ es
        /\ length (killed es) <= 1
        /\ (killed es = [] \/ param_subcommand req subcommands = Some "stop")
  | Aborted => True
  end.
Proof.
  pose (Q := fun res : command_result * lightningd =>
               exists es : list event,
                 trace (snd res) = trace ld ++ es
                 /\ length (killed es) <= 1
                 /\ (killed es = []
                     \/ param_subcommand req subcommands = Some "stop")).
  apply (control_cases Q); intros;
    [ | apply stop_cases | apply start_cases | | apply startdir_cases |
      | apply rescan_cases | ];
    intros; subst Q; on_trace;
    (split; [simpl; lia | first [left; reflexivity | right; assumption]]).
Qed.

(** X11 -- the error code of a failure reply: PLUGIN_ERROR is sent only
    by a start request, when the handshake could not be submitted; every
    other failure [json_plugin_control] replies with is
    JSONRPC2_INVALID_PARAMS. *)
Theorem plugin_error_only_from_start
  (cmd : command) (req : request) (ld : lightningd) :
  match json_plugin_control cmd req ld with
  | Returned r ld' =>
      exists es : list event,
        trace ld' = trace ld ++ es
        /\ (failure_codes es = []
            \/ failure_codes es = [JSONRPC2_INVALID_PARAMS]
            \/ failure_codes es = [PLUGIN_ERROR]
               /\ param_subcommand req subcommands = Some "start")
  | Aborted => True
  end.
Proof.
  pose (Q := fun res : command_result * lightningd =>
               exists es : list event,
                 trace (snd res) = trace ld ++ es
                 /\ (failure_codes es = []
                     \/ failure_codes es = [JSONRPC2_INVALID_PARAMS]
                     \/ failure_codes es = [PLUGIN_ERROR]
                        /\ param_subcommand req subcommands = Some "start")).
  apply (control_cases Q); intros;
    [ | apply stop_cases | apply start_cases | | apply startdir_cases |
      | apply rescan_cases | ];
    intros; subst Q; on_trace;
    first [ left; reflexivity
          | right; left; reflexivity
          | right; right; split; [reflexivity | assumption] ].
Qed.

(** X12 -- every success reply [json_plugin_control] sends is a
    well-formed stream: arrays and objects are closed in the order they
    were opened, members of an object are named and elements of an array
    are not. *)
Theorem success_replies_well_formed
  (cmd : command) (req : request) (ld : lightningd) :
  match json_plugin_control cmd req ld with
  | Returned r ld' =>
      exists es : list event,
        trace ld' = trace ld ++ es
        /\ forallb success_well_formed es = true
  | Aborted => True
  end.
Proof.
  pose (Q := fun res : command_result * lightningd =>
               exists es : list event,
                 trace (snd res) = trace ld ++ es
                 /\ forallb success_well_formed es = true).
  apply (control_cases Q); intros;
    [ | apply stop_cases | apply start_cases | | apply startdir_cases |
      | apply rescan_cases | ];
    intros; subst Q; on_trace;
    cbn [forallb success_well_formed andb];
    rewrite ?list_response_well_formed;
    try reflexivity.
  now destruct (deprecated_apis ld).
Qed.

(** X13 -- the dispatch chain compares the subcommand exactly: if
    [param_subcommand] hands back a token that is not one of the five
    names, [json_plugin_control] calls none of the handlers and reaches
    [abort()]. *)
Theorem unknown_subcommand_aborts
  (cmd : command) (req : request) (subcmd : string) (ld : lightningd) :
  param_subcommand req subcommands = Some subcmd ->
  ~ In subcmd subcommands ->
  json_plugin_control cmd req ld = Aborted.
Proof.
  intros Hsub Hnot. unfold json_plugin_control. rewrite Hsub.
  now apply dispatch_aborts_otherwise.
Qed.

(** X14 -- a list request the parser accepts leaves the registry and the
    flag untouched, so it can be repeated: the second call sends the same
    reply as the first, the snapshot of the unchanged registry. *)
Theorem list_request_repeatable
  (cmd : command) (req : request) (ld : lightningd) :
  param_subcommand req subcommands = Some "list" ->
  param_subcommand_only req = true ->
  exists r : reply,
    json_plugin_control cmd req ld
    = Returned complete (logged ld [Ev_reply cmd r])
    /\ json_plugin_control cmd req (logged ld [Ev_reply cmd r])
       = Returned complete (logged ld [Ev_reply cmd r; Ev_reply cmd r])
    /\ decode_list_reply r = Some (snapshot (plugins ld)).
Proof.
  intros Hsub Hparam.
  exists (reply_success (list_response (plugins ld))).
  unfold json_plugin_control. rewrite Hsub.
  unfold dispatch. simpl streq. cbv iota. rewrite Hparam. cbn [negb].
  unfold returned, bind, get_plugins. rewrite !list_plugins_exact.
  repeat split.
  - unfold logged; cbn [plugins deprecated_apis trace].
    now rewrite <- app_assoc.
  - apply list_response_decodes.
Qed.

End ControlInvariants.

(** ** The response builder and the callbacks, again *)

(** X15 -- the list reply is a well-formed stream of [4 * n + 2] items
    for a registry of [n] records; for the empty registry it is the empty
    "plugins" array, and the handler still succeeds. *)
Theorem list_reply_well_formed
  (cmd : command) (ps : list plugin) (ld : lightningd) :
  exists js : json_stream,
    plugin_dynamic_list_plugins cmd ps ld
    = (complete, logged ld [Ev_reply cmd (reply_success js)])
    /\ well_formed js = true
    /\ length js = 4 * length ps + 2
    /\ (ps = [] <-> js = [Json_array_start (Some "plugins"); Json_array_end]).
Proof.
  exists (list_response ps). split; [apply list_plugins_exact|].
  split; [apply list_response_well_formed|].
  split; [apply list_response_length|].
  split.
  - now intros ->.
  - intros Hjs. apply (f_equal (@length json_item)) in Hjs.
    rewrite list_response_length in Hjs. simpl in Hjs.
    destruct ps; [reflexivity | simpl in Hjs; lia].
Qed.

(** X16 -- the list reply shows the path and the active bit of each
    record and nothing else: two registries with the same
    [(name, active)] sequence get the same reply, whatever their
    [dynamic] flags and whichever non-active states their records are
    in. *)
Theorem list_reply_depends_on_snapshot
  (cmd : command) (ps qs : list plugin) (ld : lightningd) :
  snapshot ps = snapshot qs ->
  plugin_dynamic_list_plugins cmd ps ld = plugin_dynamic_list_plugins cmd qs ld.
Proof.
  intros Hsnap. rewrite !list_plugins_exact.
  now rewrite (list_response_snapshot ps qs Hsnap).
Qed.

Lemma reply_to_other (cmd cmd' : command) (r : reply) :
  cmd' <> cmd -> replies_to cmd' [Ev_reply cmd r] = [].
Proof.
  intros Hne. unfold replies_to; simpl.
  apply Nat.eqb_neq in Hne. rewrite Nat.eqb_sym in Hne. now rewrite Hne.
Qed.

(** X17 -- completion signals delivered for one command never reply to
    another command, and the callbacks change neither the registry nor
    the deprecation flag. *)
Theorem deliver_all_touches_one_command
  (cmd cmd' : command) (sigs : list completion_signal) (ld : lightningd) :
  cmd' <> cmd ->
  replies_to cmd' (trace (snd (deliver_all cmd sigs ld)))
  = replies_to cmd' (trace ld)
  /\ plugins (snd (deliver_all cmd sigs ld)) = plugins ld
  /\ deprecated_apis (snd (deliver_all cmd sigs ld)) = deprecated_apis ld.
Proof.
  intros Hne. revert ld; induction sigs as [|s sigs IH]; intros ld.
  - now repeat split.
  - rewrite deliver_all_cons.
    destruct (deliver_replies cmd s ld) as [r Hr]. rewrite Hr.
    cbn [snd]. destruct (IH (logged ld [Ev_reply cmd r])) as [H1 [H2 H3]].
    rewrite H1, H2, H3. unfold logged; cbn [plugins deprecated_apis trace].
    rewrite replies_to_app, (reply_to_other cmd cmd' r Hne), app_nil_r.
    now repeat split.
Qed.

(** X18 -- the kind of signal decides the kind of reply: a kill is
    answered with a PLUGIN_ERROR failure whose detail is the plugin's path,
    a colon and the reason; a success or an all-complete is answered with
    the snapshot of the whole registry, whichever plugin reported it. *)
Theorem deliver_reply_kind
  (cmd : command) (s : completion_signal) (ld : lightningd) :
  exists r : reply,
    deliver cmd s ld = (complete, logged ld [Ev_reply cmd r])
    /\ match s with
       | Sig_killed p msg =>
           r = reply_fail PLUGIN_ERROR (p_cmd p ++ ": " ++ msg)%string
           /\ mentions (p_cmd p ++ ": " ++ msg)%string (p_cmd p)
           /\ mentions (p_cmd p ++ ": " ++ msg)%string msg
       | Sig_succeeded _ | Sig_all_complete =>
           decode_list_reply r = Some (snapshot (plugins ld))
           /\ success_well_formed (Ev_reply cmd r) = true
       end.
Proof.
  destruct s as [p|p msg|].
  - exists (reply_success (list_response (plugins ld))). split.
    + unfold deliver, plugin_cmd_succeeded, bind, get_plugins.
      apply list_plugins_exact.
    + split; [apply list_response_decodes | apply list_response_well_formed].
  - eexists. split; [reflexivity|]. split; [reflexivity|]. split.
    + exists ""%string, (": " ++ msg)%string. reflexivity.
    + exists (p_cmd p ++ ": ")%string, ""%string.
      rewrite append_assoc_s. f_equal. f_equal.
      induction msg as [|c msg IH]; simpl; [reflexivity | now rewrite <- IH].
  - exists (reply_success (list_response (plugins ld))). split.
    + unfold deliver, plugin_cmd_all_complete, bind, get_plugins.
      apply list_plugins_exact.
    + split; [apply list_response_decodes | apply list_response_well_formed].
Qed.

(** ** The further properties on the example daemon *)

Lemma param_failed_changes_nothing_witness :
  @json_plugin_control example_layer 1 ["list"; "extra"] (example_ld false)
  = Returned param_failed (example_ld false)
  /\ example_ld false = example_ld false.
Proof.
  split; [reflexivity|].
  apply (@param_failed_changes_nothing example_layer 1 ["list"; "extra"]
           (example_ld false) (example_ld false)).
  reflexivity.
Defined.

Lemma startdir_cannot_open_witness :
  @json_plugin_control example_layer 1 ["startdir"; "/nope"] (example_ld false)
  = Returned complete
      (logged (example_ld false)
         [Ev_reply 1 (reply_fail JSONRPC2_INVALID_PARAMS "Could not open /nope")]).
Proof.
  apply (@startdir_cannot_open example_layer 1 ["startdir"; "/nope"] "/nope"
           (example_ld false)).
  - reflexivity.
  - reflexivity.
  - vm_compute. discriminate.
Defined.

Lemma startdir_add_error_witness :
  @plugin_dynamic_startdir example_layer 1 "/nope" (example_ld false)
  = (complete,
     mk_lightningd (plugins (example_ld false)) false
       [Ev_add_plugin_dir "/nope";
        Ev_reply 1 (reply_fail JSONRPC2_INVALID_PARAMS
                      "Failed to open plugin-dir /nope")]).
Proof.
  exact (@startdir_add_error example_layer 1 "/nope" (example_ld false)
           (plugins (example_ld false)) "Failed to open plugin-dir /nope"
           eq_refl).
Defined.

Lemma startdir_pending_cohort_witness :
  @plugin_dynamic_startdir example_layer 1 "/opt/plugins" (example_ld false)
  = (pending,
     mk_lightningd (plugins example_ld_starting) false
       [Ev_add_plugin_dir "/opt/plugins"; Ev_cohort_opened 1 1;
        Ev_plugins_send_getmanifest]).
Proof.
  exact (@startdir_pending_cohort example_layer 1 "/opt/plugins"
           (example_ld false) (plugins example_ld_starting) 0 eq_refl eq_refl).
Defined.

Lemma start_handshake_error_witness :
  @plugin_dynamic_start (handshake_error_layer example_fs "Cannot fork")
    1 "/opt/plugins/summary" (example_ld false)
  = (complete,
     mk_lightningd (plugins example_ld_starting) false
       [Ev_plugin_register "/opt/plugins/summary" 1;
        Ev_plugin_send_getmanifest (mk_plugin "/opt/plugins/summary" true STARTING);
        Ev_reply 1 (reply_fail PLUGIN_ERROR "/opt/plugins/summary: Cannot fork")]).
Proof.
  exact (@start_handshake_error (handshake_error_layer example_fs "Cannot fork")
           1 "/opt/plugins/summary" (example_ld false)
           (mk_plugin "/opt/plugins/summary" true STARTING)
           (plugins example_ld_starting) (plugins example_ld_starting)
           "Cannot fork" eq_refl eq_refl).
Defined.

Lemma start_pending_witness :
  @plugin_dynamic_start example_layer 1 "/opt/plugins/summary" (example_ld false)
  = (pending,
     mk_lightningd (plugins example_ld_starting) false
       [Ev_plugin_register "/opt/plugins/summary" 1;
        Ev_plugin_send_getmanifest (mk_plugin "/opt/plugins/summary" true STARTING)]).
Proof.
  exact (@start_pending example_layer 1 "/opt/plugins/summary" (example_ld false)
           (mk_plugin "/opt/plugins/summary" true STARTING)
           (plugins example_ld_starting) (plugins example_ld_starting)
           eq_refl eq_refl).
Defined.

(** A static plugin registered before a dynamic one of the same basename
    shadows it: the stop request fails as if the dynamic one were absent. *)
Lemma stop_decided_by_first_match_witness :
  fst (@plugin_dynamic_stop example_layer 1 "foo"
         (mk_lightningd [mk_plugin "/usr/libexec/foo" false INIT_COMPLETE] false []))
  = fst (@plugin_dynamic_stop example_layer 1 "foo"
           (mk_lightningd [mk_plugin "/usr/libexec/foo" false INIT_COMPLETE;
                           mk_plugin "/home/u/foo" true INIT_COMPLETE] false []))
  /\ trace (snd (@plugin_dynamic_stop example_layer 1 "foo"
                   (mk_lightningd [mk_plugin "/usr/libexec/foo" false INIT_COMPLETE]
                      false [])))
     = trace (snd (@plugin_dynamic_stop example_layer 1 "foo"
                     (mk_lightningd [mk_plugin "/usr/libexec/foo" false INIT_COMPLETE;
                                     mk_plugin "/home/u/foo" true INIT_COMPLETE]
                        false []))).
Proof.
  exact (@stop_decided_by_first_match example_layer 1 "foo" []
           (mk_plugin "/usr/libexec/foo" false INIT_COMPLETE)
           [] [mk_plugin "/home/u/foo" true INIT_COMPLETE] false []
           eq_refl eq_refl).
Defined.

Lemma unknown_subcommand_aborts_witness :
  @json_plugin_control (unchecked_subcommand_layer example_fs) 1 ["List"]
    (example_ld false)
  = Aborted.
Proof.
  apply (@unknown_subcommand_aborts (unchecked_subcommand_layer example_fs)
           1 ["List"] "List" (example_ld false)).
  - reflexivity.
  - simpl. intros [H|[H|[H|[H|[H|[]]]]]]; discriminate H.
Defined.

Lemma list_request_repeatable_witness :
  exists r : reply,
    @json_plugin_control example_layer 1 ["list"] (example_ld false)
    = Returned complete (logged (example_ld false) [Ev_reply 1 r])
    /\ @json_plugin_control example_layer 1 ["list"]
         (logged (example_ld false) [Ev_reply 1 r])
       = Returned complete (logged (example_ld false) [Ev_reply 1 r; Ev_reply 1 r])
    /\ decode_list_reply r
       = Some [("/usr/libexec/autoclean", true); ("/bin/true", true);
               ("/home/u/foo", true); ("/home/u/old", false)].
Proof.
  exact (@list_request_repeatable example_layer 1 ["list"] (example_ld false)
           eq_refl eq_refl).
Defined.

Lemma list_reply_depends_on_snapshot_witness :
  plugin_dynamic_list_plugins 1
    [mk_plugin "/bin/true" true STARTING; mk_plugin "/home/u/foo" true INIT_COMPLETE]
    (example_ld false)
  = plugin_dynamic_list_plugins 1
      [mk_plugin "/bin/true" false KILLED; mk_plugin "/home/u/foo" false INIT_COMPLETE]
      (example_ld false).
Proof.
  exact (list_reply_depends_on_snapshot 1
           [mk_plugin "/bin/true" true STARTING;
            mk_plugin "/home/u/foo" true INIT_COMPLETE]
           [mk_plugin "/bin/true" false KILLED;
            mk_plugin "/home/u/foo" false INIT_COMPLETE]
           (example_ld false) eq_refl).
Defined.

Lemma deliver_all_touches_one_command_witness :
  replies_to 2
    (trace (snd (deliver_all 1 [Sig_killed example_foo "exited"; Sig_all_complete]
                   (example_ld false))))
  = replies_to 2 (trace (example_ld false))
  /\ plugins (snd (deliver_all 1 [Sig_killed example_foo "exited"; Sig_all_complete]
                     (example_ld false)))
     = plugins (example_ld false)
  /\ deprecated_apis
       (snd (deliver_all 1 [Sig_killed example_foo "exited"; Sig_all_complete]
               (example_ld false)))
     = deprecated_apis (example_ld false).
Proof.
  apply (deliver_all_touches_one_command 1 2
           [Sig_killed example_foo "exited"; Sig_all_complete] (example_ld false)).
  discriminate.
Defined.

(** ** Where the access test and the registry decide *)

(** C6, counterexample -- [plugin start /opt/plugins], where
    [/opt/plugins] is a directory and no executable file:
    [access(path, X_OK)] answers 0, so the request is handed to the start
    handler and the path is registered.  No InvalidParams failure is
    sent and the registry grows, whether the getmanifest request can then
    be submitted (the request stays pending) or not (PLUGIN_ERROR). *)
Lemma start_directory_is_registered :
  fs_is_executable_file example_fs "/opt/plugins" = false
  /\ fs_is_directory example_fs "/opt/plugins" = true
  /\ @access example_layer "/opt/plugins" X_OK = 0%Z
  /\ @json_plugin_control example_layer 1 ["start"; "/opt/plugins"]
       (example_ld false)
     = Returned pending
         (mk_lightningd
            (plugins (example_ld false)
               ++ [mk_plugin "/opt/plugins" true STARTING])
            false
            [Ev_plugin_register "/opt/plugins" 1;
             Ev_plugin_send_getmanifest (mk_plugin "/opt/plugins" true STARTING)])
  /\ @json_plugin_control (handshake_error_layer example_fs "Permission denied")
       1 ["start"; "/opt/plugins"] (example_ld false)
     = Returned complete
         (mk_lightningd
            (plugins (example_ld false)
               ++ [mk_plugin "/opt/plugins" true STARTING])
            false
            [Ev_plugin_register "/opt/plugins" 1;
             Ev_plugin_send_getmanifest (mk_plugin "/opt/plugins" true STARTING);
             Ev_reply 1 (reply_fail PLUGIN_ERROR
                           "/opt/plugins: Permission denied")]).
Proof. repeat split; reflexivity. Qed.

